(** * AWS MCP server: resource routing, tool handlers and the stdio loop

    A shallow embedding of the Go package [mcp] of the AIOps book
    (chapters 5 and 6): [ResourceHandler.ReadResource] with its two readers
    and formatters, [ToolHandler.CallTool] with the four EC2 tool handlers and
    the two response builders, the tool table of [registerTools], and the
    message loop [Server.Start].

    Conventions.
    - A Go [string] is a Rocq [string] (a sequence of bytes).
    - A Go [error] is represented by its [Error()] text; [nil] is [None].
    - A Go result pair, pointer to [T] and [error], is a pair
      [option T * option error].
    - [interface{}] is the type [value]; [map[string]T] is [gmap string T].
    - The AWS client, the wall clock, [time.Format] and [encoding/json] are
      outside the package: they are the fields of the class [Platform].
    - Logging calls are not modelled; they do not influence any result. *)

From Stdlib Require Import ZArith QArith Strings.String Strings.Ascii Bool.
From stdpp Require Import base option gmap strings list fin_maps sorting pretty.

Set Warnings "-register-all".
Open Scope string_scope.

(** ** Go values *)

Definition error := string.

(** The dynamic type [interface{}] as produced by [encoding/json] and by the
    handlers themselves. *)
Inductive value : Type :=
| VNil
| VBool (b : bool)
| VString (s : string)
| VInt (n : Z)
| VNumber (q : Q)
| VSlice (l : list value)
| VMap (m : gmap string value).

(** [x.(string)] in its comma-ok form: the string and [true], or the zero
    value and [false]. *)
Definition assert_string (x : value) : string * bool :=
  match x with
  | VString s => (s, true)
  | _ => ("", false)
  end.

(** [m[k]] on a [map[string]interface{}]: the zero value [nil] when the key
    is missing. *)
Definition index (m : gmap string value) (k : string) : value :=
  default VNil (m !! k).

(** A fallible result of an external call. *)
Inductive outcome (A : Type) : Type :=
| Ok (a : A)
| Err (e : error).
Arguments Ok {A} a.
Arguments Err {A} e.

(** ** The package [strings] *)

Module strings.

(** [strings.HasPrefix(s, prefix)]. *)
Fixpoint HasPrefix (s prefix : string) {struct prefix} : bool :=
  match prefix with
  | EmptyString => true
  | String c prefix' =>
      match s with
      | EmptyString => false
      | String d s' => if Ascii.eqb c d then HasPrefix s' prefix' else false
      end
  end.

Fixpoint drop_bytes (n : nat) (s : string) : string :=
  match n, s with
  | O, _ => s
  | S _, EmptyString => EmptyString
  | S n', String _ s' => drop_bytes n' s'
  end.

(** [strings.TrimPrefix(s, prefix)]: [s] without the leading [prefix], or
    [s] itself when it does not start with [prefix]. *)
Definition TrimPrefix (s prefix : string) : string :=
  if HasPrefix s prefix then drop_bytes (String.length prefix) s else s.

(** [strings.Split(s, sep)] for a one-byte separator: the pieces between
    the separators, empty pieces included. *)
Fixpoint Split (sep : ascii) (s : string) : list string :=
  match s with
  | EmptyString => [EmptyString]
  | String c s' =>
      if Ascii.eqb c sep then EmptyString :: Split sep s'
      else match Split sep s' with
           | [] => [String c EmptyString]
           | seg :: segs => String c seg :: segs
           end
  end.

(** [strings.Join(segs, sep)]. *)
Fixpoint Join (sep : ascii) (segs : list string) : string :=
  match segs with
  | [] => EmptyString
  | [seg] => seg
  | seg :: segs' => seg ++ String sep (Join sep segs')
  end.

End strings.

(** ** Data of the packages [types], [aws] and [mcp] *)

(** [aws.CreateInstanceParams]. *)
Record CreateInstanceParams : Type := {
  ImageID : string;
  InstanceType : string;
  KeyName : string;
  SecurityGroupID : string;
  SubnetID : string;
  Name : string;
}.

(** [types.AWSResource]; the field [Type] is spelled [ResourceType]. The
    representation of [time.Time] is left to the platform. *)
Record AWSResource (Time : Type) : Type := {
  ID : string;
  ResourceType : string;
  Region : string;
  State : string;
  Tags : gmap string string;
  Details : gmap string value;
  LastSeen : Time;
}.
Arguments ID {Time} _.
Arguments ResourceType {Time} _.
Arguments Region {Time} _.
Arguments State {Time} _.
Arguments Tags {Time} _.
Arguments Details {Time} _.
Arguments LastSeen {Time} _.

(** [mcp.TextContent]. *)
Record TextContent : Type := {
  content_Type : string;
  content_Text : string;
}.

(** [mcp.CallToolResult]. *)
Record CallToolResult : Type := {
  Content : list TextContent;
}.

(** [mcp.TextResourceContents]. *)
Record TextResourceContents : Type := {
  URI : string;
  MIMEType : string;
  Text : string;
}.

(** [mcp.ReadResourceResult]. *)
Record ReadResourceResult : Type := {
  Contents : list TextResourceContents;
}.

(** The calls a handler makes on [aws.Client], in the order made. *)
Inductive AwsCall : Type :=
| CallListEC2Instances
| CallGetEC2Instance (instanceID : string)
| CallCreateEC2Instance (params : CreateInstanceParams)
| CallStartEC2Instance (instanceID : string)
| CallStopEC2Instance (instanceID : string)
| CallTerminateEC2Instance (instanceID : string).

(** A parameter of a tool as declared with [mcp.WithString]. *)
Record ParameterSpec : Type := {
  param_name : string;
  param_description : string;
  param_required : bool;
}.

(** A tool as declared with [mcp.NewTool]. *)
Record Tool : Type := {
  tool_name : string;
  tool_description : string;
  tool_parameters : list ParameterSpec;
}.

(** ** What the package takes from outside *)

Class Platform : Type := {
  (** the state of the cloud provider behind [aws.Client] *)
  St : Type;
  (** [time.Time] *)
  Time : Type;
  aws_ListEC2Instances : St -> outcome (list (AWSResource Time)) * St;
  aws_GetEC2Instance : string -> St -> outcome (AWSResource Time) * St;
  aws_CreateEC2Instance :
    CreateInstanceParams -> St -> outcome (AWSResource Time) * St;
  aws_StartEC2Instance : string -> St -> option error * St;
  aws_StopEC2Instance : string -> St -> option error * St;
  aws_TerminateEC2Instance : string -> St -> option error * St;
  (** [t.UTC()] and [t.Format(layout)] *)
  time_UTC : Time -> Time;
  time_Format : Time -> string -> string;
  (** [json.MarshalIndent] with an empty prefix and a two-space indent *)
  json_MarshalIndent : value -> outcome string;
}.

(** ** Handlers as state transformers *)

Section Handlers.
Context {P : Platform}.

(** What a handler can observe and change: the provider behind the AWS
    client, the record of the calls made on the client so far, and the
    reading of the wall clock during the call. *)
Record World : Type := {
  provider : St;
  calls : list AwsCall;
  clock : Time;
}.

Definition M (A : Type) : Type := World -> A * World.

Definition ret {A} (a : A) : M A := fun w => (a, w).

Definition bind {A B} (m : M A) (k : A -> M B) : M B :=
  fun w => let (a, w') := m w in k a w'.

(** One call on the client: the provider answers and moves on, and the
    call is recorded. *)
Definition invoke {A} (c : AwsCall) (f : St -> A * St) : M A :=
  fun w =>
    let (a, s') := f (provider w) in
    (a, {| provider := s'; calls := calls w ++ [c]; clock := clock w |}).

(** [time.Now()]. *)
Definition time_Now : M Time := fun w => (clock w, w).

Definition ListEC2Instances : M (outcome (list (AWSResource Time))) :=
  invoke CallListEC2Instances aws_ListEC2Instances.

Definition GetEC2Instance (instanceID : string)
  : M (outcome (AWSResource Time)) :=
  invoke (CallGetEC2Instance instanceID) (aws_GetEC2Instance instanceID).

Definition CreateEC2Instance (params : CreateInstanceParams)
  : M (outcome (AWSResource Time)) :=
  invoke (CallCreateEC2Instance params) (aws_CreateEC2Instance params).

Definition StartEC2Instance (instanceID : string) : M (option error) :=
  invoke (CallStartEC2Instance instanceID) (aws_StartEC2Instance instanceID).

Definition StopEC2Instance (instanceID : string) : M (option error) :=
  invoke (CallStopEC2Instance instanceID) (aws_StopEC2Instance instanceID).

Definition TerminateEC2Instance (instanceID : string) : M (option error) :=
  invoke (CallTerminateEC2Instance instanceID)
         (aws_TerminateEC2Instance instanceID).

End Handlers.

Declare Scope go_scope.
Delimit Scope go_scope with go.
Notation "x <- m ;; k" := (bind m (fun x => k))
  (at level 100, m at next level, right associativity) : go_scope.
Open Scope go_scope.

(** ** tools.go *)

Section ToolHandler.
Context {P : Platform}.

(** [string(jsonData)] after [jsonData, _ := json.MarshalIndent(...)]: the
    error is dropped and a failed encoding leaves the empty text. *)
Definition marshal_text (v : value) : string :=
  match json_MarshalIndent v with
  | Ok text => text
  | Err _ => ""
  end.

(** The map [errorData] of [createErrorResponse]. *)
Definition errorData (message : string) (now : Time) : gmap string value :=
  <["success" := VBool false]>
    (<["error" := VString message]>
       (<["timestamp" :=
            VString (time_Format (time_UTC now) "2006-01-02T15:04:05Z")]> ∅)).

(** The map [responseData] of [createSuccessResponse] after the loop that
    copies [data] into it: a key of [data] replaces the same key of the
    three initial entries. *)
Definition responseData (message : string) (data : gmap string value)
    (now : Time) : gmap string value :=
  data ∪
    (<["success" := VBool true]>
       (<["message" := VString message]>
          (<["timestamp" :=
               VString (time_Format (time_UTC now) "2006-01-02T15:04:05Z")]>
             ∅))).

Definition text_result (text : string) : CallToolResult :=
  {| Content := [ {| content_Type := "text"; content_Text := text |} ] |}.

Definition createErrorResponse (message : string)
  : M (option CallToolResult * option error) :=
  now <- time_Now ;;
  ret (Some (text_result (marshal_text (VMap (errorData message now)))),
       None).

Definition createSuccessResponse (message : string)
    (data : gmap string value)
  : M (option CallToolResult * option error) :=
  now <- time_Now ;;
  ret (Some (text_result (marshal_text (VMap (responseData message data now)))),
       None).

Definition createEC2Instance (arguments : gmap string value)
  : M (option CallToolResult * option error) :=
  let '(imageID, ok) := assert_string (index arguments "imageId") in
  if negb ok || String.eqb imageID "" then
    createErrorResponse "imageId is required"
  else
  let '(instanceType, ok) := assert_string (index arguments "instanceType") in
  if negb ok || String.eqb instanceType "" then
    createErrorResponse "instanceType is required"
  else
  let keyName :=
    match arguments !! "keyName" with
    | Some val => fst (assert_string val)
    | None => ""
    end in
  let securityGroupID :=
    match arguments !! "securityGroupId" with
    | Some val => fst (assert_string val)
    | None => ""
    end in
  let subnetID :=
    match arguments !! "subnetId" with
    | Some val => fst (assert_string val)
    | None => ""
    end in
  let name :=
    match arguments !! "name" with
    | Some val => fst (assert_string val)
    | None => ""
    end in
  let params :=
    {| ImageID := imageID;
       InstanceType := instanceType;
       KeyName := keyName;
       SecurityGroupID := securityGroupID;
       SubnetID := subnetID;
       Name := name |} in
  r <- CreateEC2Instance params ;;
  match r with
  | Err err =>
      createErrorResponse ("failed to create EC2 instance: " ++ err)
  | Ok resource =>
      let data : gmap string value :=
        <["instanceId" := VString (ID resource)]>
          (<["state" := VString (State resource)]>
             (<["instanceType" := index (Details resource) "instanceType"]>
                ∅)) in
      createSuccessResponse "EC2 instance created successfully" data
  end.

Definition startEC2Instance (arguments : gmap string value)
  : M (option CallToolResult * option error) :=
  let '(instanceID, ok) := assert_string (index arguments "instanceId") in
  if negb ok || String.eqb instanceID "" then
    createErrorResponse "instanceId is required"
  else
  r <- StartEC2Instance instanceID ;;
  match r with
  | Some err =>
      createErrorResponse ("failed to start EC2 instance: " ++ err)
  | None =>
      let data : gmap string value :=
        <["instanceId" := VString instanceID]>
          (<["action" := VString "start"]> ∅) in
      createSuccessResponse "EC2 instance start initiated successfully" data
  end.

Definition stopEC2Instance (arguments : gmap string value)
  : M (option CallToolResult * option error) :=
  let '(instanceID, ok) := assert_string (index arguments "instanceId") in
  if negb ok || String.eqb instanceID "" then
    createErrorResponse "instanceId is required"
  else
  r <- StopEC2Instance instanceID ;;
  match r with
  | Some err =>
      createErrorResponse ("failed to stop EC2 instance: " ++ err)
  | None =>
      let data : gmap string value :=
        <["instanceId" := VString instanceID]>
          (<["action" := VString "stop"]> ∅) in
      createSuccessResponse "EC2 instance stop initiated successfully" data
  end.

Definition terminateEC2Instance (arguments : gmap string value)
  : M (option CallToolResult * option error) :=
  let '(instanceID, ok) := assert_string (index arguments "instanceId") in
  if negb ok || String.eqb instanceID "" then
    createErrorResponse "instanceId is required"
  else
  r <- TerminateEC2Instance instanceID ;;
  match r with
  | Some err =>
      createErrorResponse ("failed to terminate EC2 instance: " ++ err)
  | None =>
      let data : gmap string value :=
        <["instanceId" := VString instanceID]>
          (<["action" := VString "terminate"]> ∅) in
      createSuccessResponse
        "EC2 instance termination initiated successfully" data
  end.

(** [ToolHandler.CallTool]. *)
Definition CallTool (name : string) (arguments : gmap string value)
  : M (option CallToolResult * option error) :=
  if String.eqb name "create-ec2-instance" then createEC2Instance arguments
  else if String.eqb name "start-ec2-instance" then startEC2Instance arguments
  else if String.eqb name "stop-ec2-instance" then stopEC2Instance arguments
  else if String.eqb name "terminate-ec2-instance" then
    terminateEC2Instance arguments
  else ret (None, Some ("unknown tool: " ++ name)).

End ToolHandler.

(** The tools declared by [Server.registerTools]. *)
Definition create_ec2_instance : Tool :=
  {| tool_name := "create-ec2-instance";
     tool_description := "Create a new EC2 instance";
     tool_parameters :=
       [ {| param_name := "imageId";
            param_description := "AMI ID to use for the instance";
            param_required := true |};
         {| param_name := "instanceType";
            param_description :=
              "EC2 instance type (e.g., t2.micro, t3.small)";
            param_required := true |};
         {| param_name := "keyName";
            param_description :=
              "Name of the key pair to use for SSH access";
            param_required := false |};
         {| param_name := "securityGroupId";
            param_description :=
              "Security group ID to assign to the instance";
            param_required := false |};
         {| param_name := "subnetId";
            param_description :=
              "Subnet ID where the instance should be launched";
            param_required := false |};
         {| param_name := "name";
            param_description := "Name tag for the instance";
            param_required := false |} ] |}.

Definition start_ec2_instance : Tool :=
  {| tool_name := "start-ec2-instance";
     tool_description := "Start a stopped EC2 instance";
     tool_parameters :=
       [ {| param_name := "instanceId";
            param_description := "EC2 instance ID to start";
            param_required := true |} ] |}.

Definition stop_ec2_instance : Tool :=
  {| tool_name := "stop-ec2-instance";
     tool_description := "Stop a running EC2 instance";
     tool_parameters :=
       [ {| param_name := "instanceId";
            param_description := "EC2 instance ID to stop";
            param_required := true |} ] |}.

Definition terminate_ec2_instance : Tool :=
  {| tool_name := "terminate-ec2-instance";
     tool_description := "Terminate an EC2 instance (permanent deletion)";
     tool_parameters :=
       [ {| param_name := "instanceId";
            param_description := "EC2 instance ID to terminate";
            param_required := true |} ] |}.

(** The tool table, in registration order. *)
Definition registered_tools : list Tool :=
  [ create_ec2_instance; start_ec2_instance; stop_ec2_instance;
    terminate_ec2_instance ].

(** ** resources.go *)

(** Go's [int] on a 64-bit platform: the result of an addition wraps. *)
Definition int_wrap (z : Z) : Z :=
  ((z + 2 ^ 63) mod 2 ^ 64 - 2 ^ 63)%Z.

(** [m[k]++] on a [map[string]int]; a missing key counts as zero. *)
Definition increment (m : gmap string Z) (k : string) : gmap string Z :=
  <[k := int_wrap (default 0%Z (m !! k) + 1)]> m.

(** The outcome of the [switch] of [ReadResource]: which case is taken. *)
Inductive Resolved : Type :=
| InstancesList
| InstanceDetail (instanceID : string)
| NotFound.

Section ResourceHandler.
Context {P : Platform}.

(** The body of the loop of [formatInstancesForAI]: the map [formatted]
    built for one instance. *)
Definition formatListEntry (instance : AWSResource Time)
  : gmap string value :=
  let formatted : gmap string value :=
    <["id" := VString (ID instance)]>
      (<["state" := VString (State instance)]>
         (<["type" := index (Details instance) "instanceType"]>
            (<["region" := VString (Region instance)]> ∅))) in
  let formatted :=
    match Tags instance !! "Name" with
    | Some name => <["name" := VString name]> formatted
    | None => formatted
    end in
  let formatted :=
    match index (Details instance) "publicIpAddress" with
    | VNil => formatted
    | publicIP => <["public_ip" := publicIP]> formatted
    end in
  let formatted :=
    match index (Details instance) "privateIpAddress" with
    | VNil => formatted
    | privateIP => <["private_ip" := privateIP]> formatted
    end in
  formatted.

(** The loop of [formatInstancesForAI] over the slice: the entries
    appended so far, [stateCount] and [typeCount]. *)
Fixpoint formatLoop (instances : list (AWSResource Time))
    (entries : list value) (stateCount typeCount : gmap string Z)
  : list value * gmap string Z * gmap string Z :=
  match instances with
  | [] => (entries, stateCount, typeCount)
  | instance :: rest =>
      let entries := (entries ++ [VMap (formatListEntry instance)])%list in
      let stateCount := increment stateCount (State instance) in
      let typeCount :=
        match assert_string (index (Details instance) "instanceType") with
        | (instanceType, true) => increment typeCount instanceType
        | (_, false) => typeCount
        end in
      formatLoop rest entries stateCount typeCount
  end.

Definition formatInstancesForAI (instances : list (AWSResource Time))
  : gmap string value :=
  let '(entries, stateCount, typeCount) := formatLoop instances [] ∅ ∅ in
  <["summary_by_type" := VMap (VInt <$> typeCount)]>
    (<["summary_by_state" := VMap (VInt <$> stateCount)]>
       (<["instances" := VSlice entries]>
          (<["total_instances" := VInt (Z.of_nat (length instances))]> ∅))).

Definition formatInstanceForAI (instance : AWSResource Time)
  : gmap string value :=
  let formatted : gmap string value :=
    <["id" := VString (ID instance)]>
      (<["type" := VString (ResourceType instance)]>
         (<["state" := VString (State instance)]>
            (<["region" := VString (Region instance)]>
               (<["tags" := VMap (VString <$> Tags instance)]>
                  (<["details" := VMap (Details instance)]>
                     (<["last_seen" :=
                          VString (time_Format (LastSeen instance)
                                     "2006-01-02T15:04:05Z07:00")]> ∅)))))) in
  let formatted :=
    match Tags instance !! "Name" with
    | Some name => <["name" := VString name]> formatted
    | None => <["name" := VString (ID instance)]> formatted
    end in
  let formatted :=
    let env := default "" (Tags instance !! "Environment") in
    if String.eqb env "" then formatted
    else <["environment" := VString env]> formatted in
  formatted.

Definition readEC2InstancesList
  : M (option ReadResourceResult * option error) :=
  r <- ListEC2Instances ;;
  match r with
  | Err err => ret (None, Some ("failed to list EC2 instances: " ++ err))
  | Ok instances =>
      let formatted := formatInstancesForAI instances in
      match json_MarshalIndent (VMap formatted) with
      | Err err =>
          ret (None, Some ("failed to marshal instances data: " ++ err))
      | Ok jsonData =>
          ret (Some {| Contents :=
                         [ {| URI := "aws://ec2/instances";
                              MIMEType := "application/json";
                              Text := jsonData |} ] |},
               None)
      end
  end.

Definition readEC2Instance (instanceID : string)
  : M (option ReadResourceResult * option error) :=
  r <- GetEC2Instance instanceID ;;
  match r with
  | Err err => ret (None, Some ("failed to get EC2 instance: " ++ err))
  | Ok instance =>
      let formatted := formatInstanceForAI instance in
      match json_MarshalIndent (VMap formatted) with
      | Err err =>
          ret (None, Some ("failed to marshal instance data: " ++ err))
      | Ok jsonData =>
          ret (Some {| Contents :=
                         [ {| URI := "aws://ec2/instances/" ++ instanceID;
                              MIMEType := "application/json";
                              Text := jsonData |} ] |},
               None)
      end
  end.

(** [ResourceHandler.ReadResource]. *)
Definition ReadResource (uri : string)
  : M (option ReadResourceResult * option error) :=
  if String.eqb uri "aws://ec2/instances" then readEC2InstancesList
  else if strings.HasPrefix uri "aws://ec2/instances/" then
    let instanceID := strings.TrimPrefix uri "aws://ec2/instances/" in
    readEC2Instance instanceID
  else ret (None, Some ("unknown resource URI: " ++ uri)).

End ResourceHandler.

(** The case analysis of [ReadResource] on its own: the conditions of the
    [switch], in order, without the handlers. *)
Definition resolve (uri : string) : Resolved :=
  if String.eqb uri "aws://ec2/instances" then InstancesList
  else if strings.HasPrefix uri "aws://ec2/instances/" then
    InstanceDetail (strings.TrimPrefix uri "aws://ec2/instances/")
  else NotFound.

Definition registered_template : string := "aws://ec2/instances/{instanceId}".

(** ** The matching rule as the specification words it

    A template matches a concrete URI iff both have the same number of
    slash-delimited segments, every literal segment is equal byte for byte,
    and every placeholder segment, written in braces, meets a non-empty
    segment, whose text it binds to the placeholder's name. *)

Module Spec.

(** The name between the braces when the segment is a placeholder. *)
Definition placeholder (seg : string) : option string :=
  match seg with
  | String "{" rest =>
      match String.length rest with
      | O => None
      | S n =>
          if String.eqb (String.substring n 1 rest) "}"
          then Some (String.substring 0 n rest)
          else None
      end
  | _ => None
  end.

Fixpoint match_segments (pattern uri : list string)
  : option (list (string * string)) :=
  match pattern, uri with
  | [], [] => Some []
  | p :: pattern', u :: uri' =>
      match placeholder p with
      | Some name =>
          if String.eqb u "" then None
          else option_map (cons (name, u)) (match_segments pattern' uri')
      | None =>
          if String.eqb p u then match_segments pattern' uri' else None
      end
  | _, _ => None
  end.

(** The placeholder bindings when [template] matches [uri]. *)
Definition template_match (template uri : string)
  : option (list (string * string)) :=
  match_segments (strings.Split "/" template) (strings.Split "/" uri).


End Spec.

(** ** server.go: the message loop *)

(** The one-byte string written after every response. *)
Definition newline : string := String (Ascii.ascii_of_nat 10) EmptyString.

(** What [Start] takes from the library [mcp-go] and from [encoding/json]:
    the server behind [HandleMessage], with whatever state it keeps, and the
    encoder of a response. *)
Class MCPServer : Type := {
  Srv : Type;
  JSONRPCMessage : Type;
  HandleMessage : string -> Srv -> option JSONRPCMessage * Srv;
  json_Marshal : JSONRPCMessage -> outcome string;
}.

(** One successful [scanner.Scan()]: the line it delivers, and what
    [ctx.Err()] is when the [select] that follows runs: [None] while the
    context is live, the cancellation condition once [ctx.Done()] is
    closed. *)
Record ScanEvent : Type := {
  scan_line : string;
  scan_ctx : option error;
}.

Section Start.
Context {S : MCPServer}.

(** The process as [Start] sees it: the library server, what has been
    written to standard output, and the lines handed to [HandleMessage]. *)
Record Process : Type := {
  mcpServer : Srv;
  stdout : list string;
  handled : list string;
}.

(** The [for scanner.Scan()] loop on the lines still to come. [Some e]:
    the loop was left by [return e]; [None]: the scanner ran out. *)
Fixpoint Start_loop (input : list ScanEvent) (p : Process)
  : option error * Process :=
  match input with
  | [] => (None, p)
  | ev :: rest =>
      match scan_ctx ev with
      | Some ctxErr => (Some ctxErr, p)
      | None =>
          let line := scan_line ev in
          if Nat.eqb (String.length line) 0 then Start_loop rest p
          else
            let (response, srv') := HandleMessage line (mcpServer p) in
            let p' := {| mcpServer := srv';
                         stdout := stdout p;
                         handled := (handled p ++ [line])%list |} in
            match response with
            | None => Start_loop rest p'
            | Some message =>
                match json_Marshal message with
                | Err _ => Start_loop rest p'
                | Ok responseBytes =>
                    Start_loop rest
                      {| mcpServer := srv';
                         stdout := (stdout p ++ [responseBytes; newline])%list;
                         handled := (handled p ++ [line])%list |}
                end
            end
      end
  end.

(** [Server.Start]: the loop, then [scanner.Err()]. *)
Definition Start (input : list ScanEvent) (scannerErr : option error)
    (p : Process) : option error * Process :=
  match Start_loop input p with
  | (Some e, p') => (Some e, p')
  | (None, p') => (scannerErr, p')
  end.

End Start.

(** ** Vocabulary for statements about the tools *)

(** The dynamic type of a value is [string]. *)
Definition is_string (v : value) : bool := snd (assert_string v).

(** A parameter is given: its key is present and bound to a non-empty
    string. *)
Definition given (arguments : gmap string value) (p : string) : bool :=
  match arguments !! p with
  | Some (VString s) => negb (String.eqb s "")
  | _ => false
  end.

Definition required_params (t : Tool) : list string :=
  map param_name (List.filter param_required (tool_parameters t)).

Definition optional_params (t : Tool) : list string :=
  map param_name
      (List.filter (fun q => negb (param_required q)) (tool_parameters t)).

(** The first required parameter, in declaration order, that is not
    given. *)
Definition first_missing (t : Tool) (arguments : gmap string value)
  : option string :=
  List.find (fun p => negb (given arguments p)) (required_params t).

(** The parameters declared before [p] in the list [ps]. *)
Fixpoint before (p : string) (ps : list string) : list string :=
  match ps with
  | [] => []
  | q :: rest => if String.eqb q p then [] else q :: before p rest
  end.

(** The words that follow [failed to] in the message of each tool. *)
Definition tool_action (name : string) : string :=
  if String.eqb name "create-ec2-instance" then "create EC2 instance"
  else if String.eqb name "start-ec2-instance" then "start EC2 instance"
  else if String.eqb name "stop-ec2-instance" then "stop EC2 instance"
  else if String.eqb name "terminate-ec2-instance" then
    "terminate EC2 instance"
  else "".

(** The error, if any, with which the provider in state [s] answers the
    call [c]. *)
Definition refusal {P : Platform} (c : AwsCall) (s : St) : option error :=
  match c with
  | CallListEC2Instances =>
      match fst (aws_ListEC2Instances s) with
      | Err e => Some e
      | Ok _ => None
      end
  | CallGetEC2Instance instanceID =>
      match fst (aws_GetEC2Instance instanceID s) with
      | Err e => Some e
      | Ok _ => None
      end
  | CallCreateEC2Instance params =>
      match fst (aws_CreateEC2Instance params s) with
      | Err e => Some e
      | Ok _ => None
      end
  | CallStartEC2Instance instanceID =>
      fst (aws_StartEC2Instance instanceID s)
  | CallStopEC2Instance instanceID =>
      fst (aws_StopEC2Instance instanceID s)
  | CallTerminateEC2Instance instanceID =>
      fst (aws_TerminateEC2Instance instanceID s)
  end.

(** ** Vocabulary for statements about the resources and the loop *)

(** The lines read while the context is live: those before the first line
    at which the cancellation signal is set. *)
Fixpoint live_prefix (input : list ScanEvent) : list ScanEvent :=
  match input with
  | [] => []
  | ev :: rest =>
      match scan_ctx ev with
      | None => ev :: live_prefix rest
      | Some _ => []
      end
  end.

(** The cancellation condition at the first line read with the signal set,
    if there is one. *)
Fixpoint cancellation (input : list ScanEvent) : option error :=
  match input with
  | [] => None
  | ev :: rest =>
      match scan_ctx ev with
      | None => cancellation rest
      | Some ctxErr => Some ctxErr
      end
  end.

(** The lines that reach [HandleMessage] when nothing is cancelled: the
    non-empty ones. *)
Definition dispatched (input : list ScanEvent) : list string :=
  List.filter (fun line => negb (Nat.eqb (String.length line) 0))
              (map scan_line input).

(** ** A small platform to run the handlers on

    An in-memory fleet stands for the provider, seconds since the epoch for
    [time.Time], and a compact encoder with sorted keys for
    [json.MarshalIndent]. *)

Module Demo.

Definition quote (s : string) : string :=
  String (Ascii.ascii_of_nat 34) (s ++ String (Ascii.ascii_of_nat 34) "").

Definition key_le (a b : string * string) : Prop :=
  String.leb (fst a) (fst b) = true.

#[local] Instance key_le_dec (a b : string * string)
  : Decision (key_le a b).
Proof. unfold key_le. apply _. Defined.

Fixpoint encode (v : value) : string :=
  match v with
  | VNil => "null"
  | VBool b => if b then "true" else "false"
  | VString s => quote s
  | VInt n => pretty n
  | VNumber q => pretty (Qnum q) ++ "/" ++ pretty (Zpos (Qden q))
  | VSlice l => "[" ++ String.concat "," (map encode l) ++ "]"
  | VMap m =>
      let fields :=
        map_fold (fun k x acc => (k, encode x) :: acc) [] m in
      "{" ++ String.concat ","
               (map (fun kv => quote (fst kv) ++ ":" ++ snd kv)
                    (merge_sort key_le fields))
          ++ "}"
  end.

Definition instance (id state type : string) : AWSResource Z :=
  {| ID := id;
     ResourceType := "ec2-instance";
     Region := "us-west-2";
     State := state;
     Tags := ∅;
     Details := <["instanceType" := VString type]> ∅;
     LastSeen := 1700000000%Z |}.

Fixpoint find (id : string) (fleet : list (AWSResource Z))
  : option (AWSResource Z) :=
  match fleet with
  | [] => None
  | i :: rest => if String.eqb (ID i) id then Some i else find id rest
  end.

(** An action on one instance: refused when the instance is unknown. *)
Definition act (id : string) (fleet : list (AWSResource Z))
  : option error * list (AWSResource Z) :=
  match find id fleet with
  | Some _ => (None, fleet)
  | None => (Some ("InvalidInstanceID.NotFound: " ++ id), fleet)
  end.

Definition platform : Platform :=
  {| St := list (AWSResource Z);
     Time := Z;
     aws_ListEC2Instances := fun fleet => (Ok fleet, fleet);
     aws_GetEC2Instance := fun id fleet =>
       match find id fleet with
       | Some i => (Ok i, fleet)
       | None => (Err ("instance " ++ id ++ " not found"), fleet)
       end;
     aws_CreateEC2Instance := fun params fleet =>
       if String.eqb (ImageID params) "ami-12345678" then
         let i := instance "i-new" "pending" (InstanceType params) in
         (Ok i, (fleet ++ [i])%list)
       else (Err ("InvalidAMIID.NotFound: " ++ ImageID params), fleet);
     aws_StartEC2Instance := act;
     aws_StopEC2Instance := act;
     aws_TerminateEC2Instance := act;
     time_UTC := fun t => t;
     time_Format := fun t _ => pretty t;
     json_MarshalIndent := fun v => Ok (encode v) |}.

Definition fleet : list (AWSResource Z) :=
  [ instance "i-12345678" "running" "t3.micro" ].

Definition w0 : World (P := platform) :=
  @Build_World platform fleet [] 1700000123%Z.

(** Arguments used as test inputs. *)
Definition number_as_instanceType : gmap string value :=
  <["instanceType" := VNumber (5 # 1)]> ∅.

Definition boolean_as_instanceId : gmap string value :=
  <["instanceId" := VBool true]> ∅.

Definition start_unknown_instance : gmap string value :=
  <["instanceId" := VString "i-0abc"]> ∅.

Definition create_micro : gmap string value :=
  <["imageId" := VString "ami-12345678"]>
    (<["instanceType" := VString "t3.micro"]> ∅).

Definition only_instanceType : gmap string value :=
  <["instanceType" := VString "t2.micro"]> ∅.

Definition only_imageId : gmap string value :=
  <["imageId" := VString "ami-12345678"]> ∅.

Definition start_known_instance : gmap string value :=
  <["instanceId" := VString "i-12345678"]> ∅.

(** A server that answers every message with its own text. *)
Definition echo : MCPServer :=
  {| Srv := nat;
     JSONRPCMessage := string;
     HandleMessage := fun line n => (Some line, S n);
     json_Marshal := fun m => Ok m |}.

Definition p0 : Process (S := echo) :=
  @Build_Process echo 0%nat [] [].

(** Three lines; the context is cancelled when the third is read. *)
Definition three_lines : list ScanEvent :=
  [ {| scan_line := "first"; scan_ctx := None |};
    {| scan_line := ""; scan_ctx := None |};
    {| scan_line := "third"; scan_ctx := Some "context canceled" |};
    {| scan_line := "fourth"; scan_ctx := Some "context canceled" |} ].

End Demo.

(** ** server.go: the handlers given to the library *)

(** What a Go function does besides returning: a nil dereference ends it
    with a run-time panic. *)
Inductive exec (A : Type) : Type :=
| Returns (a : A)
| Panics.
Arguments Returns {A} a.
Arguments Panics {A}.

Section Registration.
Context {P : Platform}.

(** The four closures of [registerTools], each on the field
    [request.Params.Arguments], whose static type is [any]. *)
Definition createToolHandler (Arguments : value)
  : M (option CallToolResult * option error) :=
  match Arguments with
  | VMap arguments => CallTool "create-ec2-instance" arguments
  | _ => ret (None, Some "invalid arguments format")
  end.

Definition startToolHandler (Arguments : value)
  : M (option CallToolResult * option error) :=
  match Arguments with
  | VMap arguments => CallTool "start-ec2-instance" arguments
  | _ => ret (None, Some "invalid arguments format")
  end.

Definition stopToolHandler (Arguments : value)
  : M (option CallToolResult * option error) :=
  match Arguments with
  | VMap arguments => CallTool "stop-ec2-instance" arguments
  | _ => ret (None, Some "invalid arguments format")
  end.

Definition terminateToolHandler (Arguments : value)
  : M (option CallToolResult * option error) :=
  match Arguments with
  | VMap arguments => CallTool "terminate-ec2-instance" arguments
  | _ => ret (None, Some "invalid arguments format")
  end.

(** [registerTools]: the tools with their handlers, in the order of the
    calls of [AddTool]. *)
Definition registerTools
  : list (Tool * (value -> M (option CallToolResult * option error))) :=
  [ (create_ec2_instance, createToolHandler);
    (start_ec2_instance, startToolHandler);
    (stop_ec2_instance, stopToolHandler);
    (terminate_ec2_instance, terminateToolHandler) ].

(** The tail shared by the two closures of [registerResources]: the error
    if there is one, the contents of the result otherwise. Reading the
    contents of a nil result panics. *)
Definition contentsOf (r : option ReadResourceResult * option error)
  : exec (list TextResourceContents * option error) :=
  match r with
  | (_, Some err) => Returns ([], Some err)
  | (Some result, None) => Returns (Contents result, None)
  | (None, None) => Panics
  end.

(** The closure registered for the resource [aws://ec2/instances]; the
    argument is [request.Params.URI], which it does not read. *)
Definition listResourceHandler (requestURI : string)
  : M (exec (list TextResourceContents * option error)) :=
  r <- ReadResource "aws://ec2/instances" ;;
  ret (contentsOf r).

(** The closure registered for the template
    [aws://ec2/instances/{instanceId}]. *)
Definition templateResourceHandler (requestURI : string)
  : M (exec (list TextResourceContents * option error)) :=
  r <- ReadResource requestURI ;;
  ret (contentsOf r).

End Registration.

(** ** aws/client.go over the EC2 interface of the SDK *)

(** The fields of [ec2types.Instance] and of the types around it that the
    client reads, typed as the SDK (aws-sdk-go-v2, service/ec2/types)
    declares them; a pointer field is an option. The client tests [Key],
    [Value], [InstanceId] and the two addresses against nil before it
    dereferences them, and reads [State.Name] without a test. The field
    [Placement] is spelled [Placement_]. *)
Module ec2types.

Record Tag : Type := {
  Key : option string;
  Value : option string;
}.

Record InstanceState : Type := {
  Name : string;
}.

Record Instance (Time Placement : Type) : Type := {
  InstanceId : option string;
  InstanceType : string;
  State : option InstanceState;
  Tags : list Tag;
  PublicIpAddress : option string;
  PrivateIpAddress : option string;
  Placement_ : option Placement;
  LaunchTime : option Time;
}.
Arguments InstanceId {Time Placement} _.
Arguments InstanceType {Time Placement} _.
Arguments State {Time Placement} _.
Arguments Tags {Time Placement} _.
Arguments PublicIpAddress {Time Placement} _.
Arguments PrivateIpAddress {Time Placement} _.
Arguments Placement_ {Time Placement} _.
Arguments LaunchTime {Time Placement} _.

Record Reservation (Time Placement : Type) : Type := {
  Instances : list (Instance Time Placement);
}.
Arguments Instances {Time Placement} _.

End ec2types.

(** What the client takes from the SDK and from the run time: the service
    behind [DescribeInstances] together with the wall clock, the region of
    the configuration, and the two pointers it stores under [details] as
    they are. *)
Class EC2 (Time : Type) : Type := {
  Env : Type;
  Placement : Type;
  (** [DescribeInstances] with the given [InstanceIds]: the reservations of
      the output, or the error *)
  ec2_DescribeInstances :
    list string -> Env ->
    outcome (list (ec2types.Reservation Time Placement)) * Env;
  (** [time.Now()] *)
  env_Now : Env -> Time * Env;
  (** [c.cfg.Region] *)
  cfg_Region : string;
  (** the interface values that hold [instance.Placement] and
      [instance.LaunchTime] *)
  placement_value : option Placement -> value;
  launchTime_value : option Time -> value;
}.

Module aws.
Section Client.
Context {Time : Type} {E : EC2 Time}.

(** The loop of [convertEC2Instance] over [instance.Tags]. *)
Definition collectTags (tags : list ec2types.Tag) : gmap string string :=
  fold_left
    (fun acc tag =>
       match ec2types.Key tag, ec2types.Value tag with
       | Some k, Some v => <[k := v]> acc
       | _, _ => acc
       end)
    tags ∅.

Definition convertEC2Instance (instance : ec2types.Instance Time Placement)
    (env : Env) : exec (AWSResource Time * Env) :=
  let tags := collectTags (ec2types.Tags instance) in
  let details : gmap string value :=
    <["instanceType" := VString (ec2types.InstanceType instance)]>
      (<["placement" := placement_value (ec2types.Placement_ instance)]>
         (<["launchTime" := launchTime_value (ec2types.LaunchTime instance)]>
            ∅)) in
  let details :=
    match ec2types.PublicIpAddress instance with
    | Some ip => <["publicIpAddress" := VString ip]> details
    | None => details
    end in
  let details :=
    match ec2types.PrivateIpAddress instance with
    | Some ip => <["privateIpAddress" := VString ip]> details
    | None => details
    end in
  let instanceID := default "" (ec2types.InstanceId instance) in
  match ec2types.State instance with
  | None => Panics
  | Some state =>
      let (now, env') := env_Now env in
      Returns ({| ID := instanceID;
                  ResourceType := "ec2-instance";
                  Region := cfg_Region;
                  State := ec2types.Name state;
                  Tags := tags;
                  Details := details;
                  LastSeen := now |}, env')
  end.

(** The inner loop of [ListEC2Instances]: the instances of one
    reservation, appended to [resources]. *)
Fixpoint convertInstances
    (instances : list (ec2types.Instance Time Placement))
    (resources : list (AWSResource Time)) (env : Env)
  : exec (list (AWSResource Time) * Env) :=
  match instances with
  | [] => Returns (resources, env)
  | instance :: rest =>
      match convertEC2Instance instance env with
      | Panics => Panics
      | Returns (resource, env') =>
          convertInstances rest (resources ++ [resource])%list env'
      end
  end.

(** The outer loop of [ListEC2Instances]. *)
Fixpoint convertReservations
    (reservations : list (ec2types.Reservation Time Placement))
    (resources : list (AWSResource Time)) (env : Env)
  : exec (list (AWSResource Time) * Env) :=
  match reservations with
  | [] => Returns (resources, env)
  | reservation :: rest =>
      match convertInstances (ec2types.Instances reservation) resources env
      with
      | Panics => Panics
      | Returns (resources', env') => convertReservations rest resources' env'
      end
  end.

(** [Client.ListEC2Instances]; the clock is read at the start, once for
    each instance, and once more for the duration that is logged. *)
Definition ListEC2Instances (env : Env)
  : exec (outcome (list (AWSResource Time)) * Env) :=
  let (start, env) := env_Now env in
  let (result, env) := ec2_DescribeInstances [] env in
  match result with
  | Err err => Returns (Err ("failed to describe instances: " ++ err), env)
  | Ok reservations =>
      match convertReservations reservations [] env with
      | Panics => Panics
      | Returns (resources, env) =>
          let (_, env) := env_Now env in
          Returns (Ok resources, env)
      end
  end.

(** [Client.GetEC2Instance]. *)
Definition GetEC2Instance (instanceID : string) (env : Env)
  : exec (outcome (AWSResource Time) * Env) :=
  let (result, env) := ec2_DescribeInstances [instanceID] env in
  match result with
  | Err err =>
      Returns (Err ("failed to describe instance " ++ instanceID ++ ": "
                      ++ err), env)
  | Ok reservations =>
      match reservations with
      | [] => Returns (Err ("instance " ++ instanceID ++ " not found"), env)
      | reservation :: _ =>
          match ec2types.Instances reservation with
          | [] =>
              Returns (Err ("instance " ++ instanceID ++ " not found"), env)
          | instance :: _ =>
              match convertEC2Instance instance env with
              | Panics => Panics
              | Returns (resource, env) => Returns (Ok resource, env)
              end
          end
      end
  end.

End Client.
End aws.

(** ** Vocabulary for further statements *)

(** The string bound to a key: empty when the key is missing or bound to a
    value that is not a string. *)
Definition string_at (arguments : gmap string value) (k : string) : string :=
  match arguments !! k with
  | Some (VString s) => s
  | _ => ""
  end.

(** The launch parameters read off an arguments map, field by field. *)
Definition params_of (arguments : gmap string value) : CreateInstanceParams :=
  {| ImageID := string_at arguments "imageId";
     InstanceType := string_at arguments "instanceType";
     KeyName := string_at arguments "keyName";
     SecurityGroupID := string_at arguments "securityGroupId";
     SubnetID := string_at arguments "subnetId";
     Name := string_at arguments "name" |}.

(** The three tools that act on one instance, by the verb in their name,
    and the call each makes on the client. *)
Definition instance_verbs : list string := ["start"; "stop"; "terminate"].

Definition instance_call (verb instanceID : string) : AwsCall :=
  if String.eqb verb "start" then CallStartEC2Instance instanceID
  else if String.eqb verb "stop" then CallStopEC2Instance instanceID
  else CallTerminateEC2Instance instanceID.

(** How often a key occurs in a list of keys. *)
Definition occurrences (k : string) (keys : list string) : nat :=
  List.length (List.filter (String.eqb k) keys).

(** The instance type of a resource when its detail is a string. *)
Definition type_of {Time : Type} (instance : AWSResource Time)
  : option string :=
  match Details instance !! "instanceType" with
  | Some (VString s) => Some s
  | _ => None
  end.

Section LoopVocabulary.
Context {S : MCPServer}.

(** What is written, and what becomes of the server, when the lines are
    handled one after the other: a response and a line break for each line
    that has a response that can be encoded. *)
Fixpoint serve (lines : list string) (srv : Srv) : list string * Srv :=
  match lines with
  | [] => ([], srv)
  | line :: rest =>
      let (response, srv') := HandleMessage line srv in
      let written :=
        match response with
        | Some message =>
            match json_Marshal message with
            | Ok responseBytes => [responseBytes; newline]
            | Err _ => []
            end
        | None => []
        end in
      let (out, srv'') := serve rest srv' in
      ((written ++ out)%list, srv'')
  end.

End LoopVocabulary.

(** An empty line read while the context is live. *)
Definition idle (ev : ScanEvent) : bool :=
  match scan_ctx ev with
  | None => Nat.eqb (String.length (scan_line ev)) 0
  | Some _ => false
  end.

Section ClientVocabulary.
Context {Time : Type} {E : EC2 Time}.

(** One step of the loop over the tags of an instance. *)
Definition tag_step (acc : gmap string string) (tag : ec2types.Tag)
  : gmap string string :=
  match ec2types.Key tag, ec2types.Value tag with
  | Some k, Some v => <[k := v]> acc
  | _, _ => acc
  end.

(** The instance carries a state. *)
Definition has_state (instance : ec2types.Instance Time Placement) : bool :=
  match ec2types.State instance with
  | Some _ => true
  | None => false
  end.

(** The resource [r] carries what the client takes over from [instance]. *)
Definition converted (instance : ec2types.Instance Time Placement)
    (r : AWSResource Time) : Prop :=
  ID r = default "" (ec2types.InstanceId instance)
  /\ ResourceType r = "ec2-instance"
  /\ Region r = cfg_Region
  /\ (exists st, ec2types.State instance = Some st
                 /\ State r = ec2types.Name st)
  /\ Tags r = aws.collectTags (ec2types.Tags instance)
  /\ Details r !! "instanceType" =
       Some (VString (ec2types.InstanceType instance))
  /\ Details r !! "publicIpAddress" =
       VString <$> ec2types.PublicIpAddress instance
  /\ Details r !! "privateIpAddress" =
       VString <$> ec2types.PrivateIpAddress instance.

End ClientVocabulary.

(** ** A small EC2 service to run the client on

    Two reservations, the second with an instance that has no instance id;
    the clock counts the readings. *)

Module DemoEC2.

Definition web : ec2types.Instance Z unit :=
  {| ec2types.InstanceId := Some "i-12345678";
     ec2types.InstanceType := "t3.micro";
     ec2types.State := Some {| ec2types.Name := "running" |};
     ec2types.Tags :=
       [ {| ec2types.Key := Some "Name"; ec2types.Value := Some "web" |};
         {| ec2types.Key := Some "Owner"; ec2types.Value := None |};
         {| ec2types.Key := Some "Name"; ec2types.Value := Some "web-1" |} ];
     ec2types.PublicIpAddress := Some "203.0.113.7";
     ec2types.PrivateIpAddress := Some "10.0.0.7";
     ec2types.Placement_ := Some tt;
     ec2types.LaunchTime := Some 1690000000%Z |}.

Definition batch : ec2types.Instance Z unit :=
  {| ec2types.InstanceId := None;
     ec2types.InstanceType := "t3.micro";
     ec2types.State := Some {| ec2types.Name := "stopped" |};
     ec2types.Tags := [];
     ec2types.PublicIpAddress := None;
     ec2types.PrivateIpAddress := Some "10.0.0.8";
     ec2types.Placement_ := None;
     ec2types.LaunchTime := None |}.

Definition reservations : list (ec2types.Reservation Z unit) :=
  [ {| ec2types.Instances := [web] |};
    {| ec2types.Instances := [] |};
    {| ec2types.Instances := [batch] |} ].

Definition service : EC2 Z :=
  {| Env := Z;
     Placement := unit;
     ec2_DescribeInstances := fun _ env => (Ok reservations, env);
     env_Now := fun env => (env, (env + 1)%Z);
     cfg_Region := "us-west-2";
     placement_value := fun p =>
       match p with Some _ => VString "us-west-2a" | None => VNil end;
     launchTime_value := fun t =>
       match t with Some t => VInt t | None => VNil end |}.

(** The resources that the client lists, with the clock at zero. *)
Definition listed : list (AWSResource Z) :=
  match aws.ListEC2Instances (E := service) 0%Z with
  | Returns (Ok resources, _) => resources
  | _ => []
  end.

End DemoEC2.

(** Further inputs for the small platform. *)
Module DemoInputs.

(** Two lines, the second empty, and no cancellation. *)
Definition two_lines : list ScanEvent :=
  [ {| scan_line := "first"; scan_ctx := None |};
    {| scan_line := ""; scan_ctx := None |} ].

End DemoInputs.

(** ** Vocabulary for repeated reads *)

(** Two resources agree in every field but [LastSeen]. *)
Definition same_but_LastSeen {Time : Type} (r1 r2 : AWSResource Time)
  : Prop :=
  ID r1 = ID r2
  /\ ResourceType r1 = ResourceType r2
  /\ Region r1 = Region r2
  /\ State r1 = State r2
  /\ Tags r1 = Tags r2
  /\ Details r1 = Details r2.

(** The client answers the listing alike in two worlds, the time stamps of
    the records apart. *)
Definition same_listing {P : Platform} (w1 w2 : World) : Prop :=
  match fst (aws_ListEC2Instances (provider w1)),
        fst (aws_ListEC2Instances (provider w2)) with
  | Ok l1, Ok l2 => Forall2 same_but_LastSeen l1 l2
  | Err e1, Err e2 => e1 = e2
  | _, _ => False
  end.

(** ** The small platform over the client of the package

    The reads go through [aws.ListEC2Instances] and [aws.GetEC2Instance] on
    the small EC2 service, whose answer never changes; the provider state
    is the clock of the client. *)

Module DemoClient.

Definition run {A} (default : A) (r : exec (A * Z)) (env : Z) : A * Z :=
  match r with
  | Returns (a, env') => (a, env')
  | Panics => (default, env)
  end.

Definition platform : Platform :=
  {| St := Z;
     Time := Z;
     aws_ListEC2Instances := fun env =>
       run (Err "panic") (aws.ListEC2Instances (E := DemoEC2.service) env) env;
     aws_GetEC2Instance := fun instanceID env =>
       run (Err "panic")
           (aws.GetEC2Instance (E := DemoEC2.service) instanceID env) env;
     aws_CreateEC2Instance := fun _ env => (Err "not supported", env);
     aws_StartEC2Instance := fun _ env => (Some "not supported", env);
     aws_StopEC2Instance := fun _ env => (Some "not supported", env);
     aws_TerminateEC2Instance := fun _ env => (Some "not supported", env);
     time_UTC := fun t => t;
     time_Format := fun t _ => pretty t;
     json_MarshalIndent := fun v => Ok (Demo.encode v) |}.

Definition w0 : World (P := platform) :=
  @Build_World platform 0%Z [] 1700000123%Z.

(** The world after one read of the first instance. *)
Definition w1 : World (P := platform) :=
  snd (ReadResource (P := platform) "aws://ec2/instances/i-12345678" w0).

(** The time stamp of the record that a lookup returns. *)
Definition stamp (w : World (P := platform)) (instanceID : string)
  : option Z :=
  match fst (aws_GetEC2Instance (Platform := platform) instanceID
               (provider w)) with
  | Ok r => Some (LastSeen r)
  | Err _ => None
  end.

End DemoClient.

(** * Theorems *)

(** ** Facts about lists of parameters *)

Lemma find_before (f : string -> bool) (ps : list string) (p : string) :
  In p ps -> f p = true ->
  exists q, List.find f ps = Some q /\ f q = true /\
            ((forall q', In q' (before p ps) -> f q' = false) -> q = p).
Proof.
  induction ps as [|a ps IH]; simpl; [tauto|].
  intros Hin Hp. destruct (f a) eqn:Hfa.
  - exists a. repeat split; trivial. intros Hbefore.
    destruct (String.eqb a p) eqn:Hap; [now apply String.eqb_eq|].
    specialize (Hbefore a (or_introl eq_refl)). congruence.
  - destruct Hin as [->|Hin]; [congruence|].
    destruct (IH Hin Hp) as (q & Hfind & Hq & Hfirst).
    exists q. repeat split; trivial. intros Hbefore.
    destruct (String.eqb a p) eqn:Hap.
    + apply String.eqb_eq in Hap. congruence.
    + apply Hfirst. intros q' Hq'. apply Hbefore. now right.
Qed.

Lemma find_ext_in {A} (f g : A -> bool) (l : list A) :
  (forall x, In x l -> f x = g x) -> List.find f l = List.find g l.
Proof.
  induction l as [|a l IH]; simpl; [reflexivity|].
  intros H. rewrite (H a) by now left.
  destruct (g a); [reflexivity|]. apply IH. intros x Hx. apply H. now right.
Qed.

Section ToolFacts.
Context {P : Platform}.
Implicit Types (arguments : gmap string value) (w : World).

Lemma createErrorResponse_run message w :
  createErrorResponse message w =
    ((Some (text_result
              (marshal_text (VMap (errorData message (clock w))))), None),
     w).
Proof. reflexivity. Qed.

Lemma createSuccessResponse_run message data w :
  createSuccessResponse message data w =
    ((Some (text_result
              (marshal_text (VMap (responseData message data (clock w))))),
      None), w).
Proof. reflexivity. Qed.

Lemma given_inv arguments k :
  given arguments k = true ->
  exists s, arguments !! k = Some (VString s) /\ String.eqb s "" = false.
Proof.
  unfold given. destruct (arguments !! k) as [[]|]; try discriminate.
  intros H. eexists; split; [reflexivity|].
  now apply negb_true_iff.
Qed.

(** The four cases of [CallTool]. *)
Lemma CallTool_create arguments :
  CallTool "create-ec2-instance" arguments = createEC2Instance arguments.
Proof. reflexivity. Qed.

Lemma CallTool_start arguments :
  CallTool "start-ec2-instance" arguments = startEC2Instance arguments.
Proof. reflexivity. Qed.

Lemma CallTool_stop arguments :
  CallTool "stop-ec2-instance" arguments = stopEC2Instance arguments.
Proof. reflexivity. Qed.

Lemma CallTool_terminate arguments :
  CallTool "terminate-ec2-instance" arguments =
    terminateEC2Instance arguments.
Proof. reflexivity. Qed.

(** A handler whose required parameter is not given stops at its check.
    [stop_at_check H] closes such a goal from [H : given arguments k = false],
    once the handler is unfolded up to the lookup of [k]. *)
Ltac stop_at_check H :=
  unfold given, index in *;
  match type of H with
  | context [?m !! ?k] =>
      destruct (m !! k) as [[]|]; simpl in *; try reflexivity
  end;
  apply negb_false_iff in H; now rewrite H.

Lemma createEC2Instance_no_imageId arguments w :
  given arguments "imageId" = false ->
  createEC2Instance arguments w =
    createErrorResponse "imageId is required" w.
Proof. intros H. unfold createEC2Instance. stop_at_check H. Qed.

Lemma createEC2Instance_no_instanceType arguments w :
  given arguments "imageId" = true ->
  given arguments "instanceType" = false ->
  createEC2Instance arguments w =
    createErrorResponse "instanceType is required" w.
Proof.
  intros H1 H2. destruct (given_inv _ _ H1) as (s & Hs & Hne).
  unfold createEC2Instance, index. rewrite Hs. simpl. rewrite Hne.
  stop_at_check H2.
Qed.

Lemma startEC2Instance_missing arguments w :
  given arguments "instanceId" = false ->
  startEC2Instance arguments w =
    createErrorResponse "instanceId is required" w.
Proof. intros H. unfold startEC2Instance. stop_at_check H. Qed.

Lemma stopEC2Instance_missing arguments w :
  given arguments "instanceId" = false ->
  stopEC2Instance arguments w =
    createErrorResponse "instanceId is required" w.
Proof. intros H. unfold stopEC2Instance. stop_at_check H. Qed.

Lemma terminateEC2Instance_missing arguments w :
  given arguments "instanceId" = false ->
  terminateEC2Instance arguments w =
    createErrorResponse "instanceId is required" w.
Proof. intros H. unfold terminateEC2Instance. stop_at_check H. Qed.

(** Validation failure, for every tool: the first required parameter that
    is not given names the message, and the world is left as it was. *)
Lemma validation_failure (t : Tool) arguments w q :
  In t registered_tools ->
  first_missing t arguments = Some q ->
  CallTool (tool_name t) arguments w =
    createErrorResponse (q ++ " is required") w.
Proof.
  intros Ht. simpl in Ht.
  destruct Ht as [<-|[<-|[<-|[<-|[]]]]]; unfold first_missing; simpl.
  - destruct (given arguments "imageId") eqn:H1; simpl.
    + destruct (given arguments "instanceType") eqn:H2; simpl;
        [discriminate|].
      intros [= <-]. rewrite CallTool_create.
      now apply createEC2Instance_no_instanceType.
    + intros [= <-]. rewrite CallTool_create.
      now apply createEC2Instance_no_imageId.
  - destruct (given arguments "instanceId") eqn:H1; simpl; [discriminate|].
    intros [= <-]. rewrite CallTool_start.
    now apply startEC2Instance_missing.
  - destruct (given arguments "instanceId") eqn:H1; simpl; [discriminate|].
    intros [= <-]. rewrite CallTool_stop.
    now apply stopEC2Instance_missing.
  - destruct (given arguments "instanceId") eqn:H1; simpl; [discriminate|].
    intros [= <-]. rewrite CallTool_terminate.
    now apply terminateEC2Instance_missing.
Qed.

(** A required parameter that is not given makes validation fail, at that
    parameter or at one declared before it. *)
Lemma missing_required (t : Tool) arguments p :
  In p (required_params t) ->
  given arguments p = false ->
  exists q, first_missing t arguments = Some q /\
            ((forall q', In q' (before p (required_params t)) ->
                         given arguments q' = true) -> q = p).
Proof.
  intros Hp Hg.
  destruct (find_before (fun p => negb (given arguments p))
              (required_params t) p Hp) as (q & Hfind & _ & Hfirst).
  { now rewrite Hg. }
  exists q. split; [exact Hfind|].
  intros Hbefore. apply Hfirst. intros q' Hq'.
  now rewrite (Hbefore q' Hq').
Qed.

(** A single-parameter handler whose parameter is given calls the
    client once, on that instance. *)
Lemma startEC2Instance_given arguments w s :
  arguments !! "instanceId" = Some (VString s) ->
  String.eqb s "" = false ->
  startEC2Instance arguments w =
    (r <- StartEC2Instance s ;;
     match r with
     | Some err =>
         createErrorResponse ("failed to start EC2 instance: " ++ err)
     | None =>
         createSuccessResponse "EC2 instance start initiated successfully"
           (<["instanceId" := VString s]>
              (<["action" := VString "start"]> ∅))
     end) w.
Proof.
  intros Hs Hne. unfold startEC2Instance, index. rewrite Hs. simpl.
  now rewrite Hne.
Qed.

Lemma stopEC2Instance_given arguments w s :
  arguments !! "instanceId" = Some (VString s) ->
  String.eqb s "" = false ->
  stopEC2Instance arguments w =
    (r <- StopEC2Instance s ;;
     match r with
     | Some err =>
         createErrorResponse ("failed to stop EC2 instance: " ++ err)
     | None =>
         createSuccessResponse "EC2 instance stop initiated successfully"
           (<["instanceId" := VString s]>
              (<["action" := VString "stop"]> ∅))
     end) w.
Proof.
  intros Hs Hne. unfold stopEC2Instance, index. rewrite Hs. simpl.
  now rewrite Hne.
Qed.

Lemma terminateEC2Instance_given arguments w s :
  arguments !! "instanceId" = Some (VString s) ->
  String.eqb s "" = false ->
  terminateEC2Instance arguments w =
    (r <- TerminateEC2Instance s ;;
     match r with
     | Some err =>
         createErrorResponse ("failed to terminate EC2 instance: " ++ err)
     | None =>
         createSuccessResponse
           "EC2 instance termination initiated successfully"
           (<["instanceId" := VString s]>
              (<["action" := VString "terminate"]> ∅))
     end) w.
Proof.
  intros Hs Hne. unfold terminateEC2Instance, index. rewrite Hs. simpl.
  now rewrite Hne.
Qed.

(** The two answers of the provider to the one call of a single-parameter
    handler: a refusal, which becomes a failure, or none, which becomes a
    success whose data leave [success] and [timestamp] alone. *)
Ltac by_answer op s w :=
  unfold bind, invoke, refusal;
  destruct (op s (provider w)) as [[?e|] ?s']; simpl; split;
  try reflexivity;
  eexists _, _; repeat split; reflexivity.

(** What a tool does once validation has passed: one call on the client,
    and a response built from the answer. *)
Lemma validated_call (t : Tool) arguments w :
  In t registered_tools ->
  first_missing t arguments = None ->
  exists c,
    calls (snd (CallTool (tool_name t) arguments w)) = (calls w ++ [c])%list
    /\ match refusal c (provider w) with
       | Some e =>
           fst (CallTool (tool_name t) arguments w) =
             fst (createErrorResponse
                    ("failed to " ++ tool_action (tool_name t) ++ ": " ++ e)
                    w)
       | None =>
           exists message data,
             fst (CallTool (tool_name t) arguments w) =
               fst (createSuccessResponse message data w)
             /\ data !! "success" = None /\ data !! "timestamp" = None
       end.
Proof.
  intros Ht. simpl in Ht.
  destruct Ht as [<-|[<-|[<-|[<-|[]]]]]; unfold first_missing; simpl.
  - destruct (given arguments "imageId") eqn:H1; simpl; [|discriminate].
    destruct (given arguments "instanceType") eqn:H2; simpl; [|discriminate].
    intros _.
    destruct (given_inv _ _ H1) as (s1 & Hs1 & Hne1).
    destruct (given_inv _ _ H2) as (s2 & Hs2 & Hne2).
    rewrite CallTool_create. unfold createEC2Instance, index.
    rewrite Hs1, Hs2. simpl. rewrite Hne1, Hne2.
    unfold bind, CreateEC2Instance, invoke.
    match goal with
    | |- context [aws_CreateEC2Instance ?p (provider w)] =>
        exists (CallCreateEC2Instance p);
        unfold refusal;
        destruct (aws_CreateEC2Instance p (provider w)) as [[resource|e] s']
    end; simpl; split; try reflexivity.
    eexists _, _. repeat split; reflexivity.
  - destruct (given arguments "instanceId") eqn:H1; simpl; [|discriminate].
    intros _. destruct (given_inv _ _ H1) as (s & Hs & Hne).
    rewrite CallTool_start, (startEC2Instance_given _ _ _ Hs Hne).
    exists (CallStartEC2Instance s). unfold StartEC2Instance.
    by_answer aws_StartEC2Instance s w.
  - destruct (given arguments "instanceId") eqn:H1; simpl; [|discriminate].
    intros _. destruct (given_inv _ _ H1) as (s & Hs & Hne).
    rewrite CallTool_stop, (stopEC2Instance_given _ _ _ Hs Hne).
    exists (CallStopEC2Instance s). unfold StopEC2Instance.
    by_answer aws_StopEC2Instance s w.
  - destruct (given arguments "instanceId") eqn:H1; simpl; [|discriminate].
    intros _. destruct (given_inv _ _ H1) as (s & Hs & Hne).
    rewrite CallTool_terminate, (terminateEC2Instance_given _ _ _ Hs Hne).
    exists (CallTerminateEC2Instance s). unfold TerminateEC2Instance.
    by_answer aws_TerminateEC2Instance s w.
Qed.

(** The payload of a failure. *)
Lemma errorData_lookup message now :
  errorData message now !! "success" = Some (VBool false)
  /\ errorData message now !! "error" = Some (VString message)
  /\ errorData message now !! "timestamp" =
       Some (VString (time_Format (time_UTC now) "2006-01-02T15:04:05Z")).
Proof. repeat split; reflexivity. Qed.

(** The payload of a success, when [data] leaves the two keys alone. *)
Lemma responseData_lookup message data now :
  data !! "success" = None -> data !! "timestamp" = None ->
  responseData message data now !! "success" = Some (VBool true)
  /\ responseData message data now !! "timestamp" =
       Some (VString (time_Format (time_UTC now) "2006-01-02T15:04:05Z")).
Proof.
  intros H1 H2. unfold responseData.
  split; rewrite lookup_union_r by assumption; reflexivity.
Qed.

End ToolFacts.

Section ToolClaims.
Context {P : Platform}.
Implicit Types (arguments : gmap string value) (w : World).

(** C1, as the code has it. For every tool name that no registered tool
    carries, and for all arguments, [CallTool] returns no result together
    with the Go error whose text is [unknown tool: ] followed by the name,
    and leaves the world as it was, so the client is not called. The outcome
    is an error of the call itself, not a failure payload inside a result. *)
Theorem CallTool_unknown_tool name arguments w :
  (forall t, In t registered_tools -> tool_name t <> name) ->
  CallTool name arguments w = ((None, Some ("unknown tool: " ++ name)), w).
Proof.
  intros H. unfold CallTool.
  assert (forall t, In t registered_tools ->
                    String.eqb name (tool_name t) = false) as Hneq.
  { intros t Ht. apply String.eqb_neq. intros ->. now apply (H t). }
  pose proof (Hneq create_ec2_instance) as H1.
  pose proof (Hneq start_ec2_instance) as H2.
  pose proof (Hneq stop_ec2_instance) as H3.
  pose proof (Hneq terminate_ec2_instance) as H4.
  simpl in H1, H2, H3, H4.
  rewrite H1, H2, H3, H4 by tauto. reflexivity.
Qed.

Lemma validation_failure_keeps_calls (t : Tool) arguments w q :
  In t registered_tools ->
  first_missing t arguments = Some q ->
  fst (CallTool (tool_name t) arguments w) =
    fst (createErrorResponse (q ++ " is required") w)
  /\ calls (snd (CallTool (tool_name t) arguments w)) = calls w.
Proof.
  intros Ht Hq. now rewrite (validation_failure t arguments w q Ht Hq).
Qed.

(** C3, as the code has it. For every registered tool and every required
    parameter [p] of it, when the key [p] is absent from the arguments or
    bound to the empty string, the tool returns the failure whose message is
    [q is required], where [q] is the first required parameter in declaration
    order that is not given; the client is not called; and [q] is [p] itself
    when every required parameter declared before [p] is given. *)
Theorem required_absent_or_empty (t : Tool) p arguments w :
  In t registered_tools ->
  In p (required_params t) ->
  arguments !! p = None \/ arguments !! p = Some (VString "") ->
  exists q,
    first_missing t arguments = Some q
    /\ fst (CallTool (tool_name t) arguments w) =
         fst (createErrorResponse (q ++ " is required") w)
    /\ calls (snd (CallTool (tool_name t) arguments w)) = calls w
    /\ ((forall q', In q' (before p (required_params t)) ->
                    given arguments q' = true) -> q = p).
Proof.
  intros Ht Hp Habsent.
  assert (given arguments p = false) as Hg.
  { unfold given. now destruct Habsent as [-> | ->]. }
  destruct (missing_required t arguments p Hp Hg) as (q & Hq & Hfirst).
  exists q. split; [exact Hq|].
  destruct (validation_failure_keeps_calls t arguments w q Ht Hq).
  auto.
Qed.

(** C10, as the code has it. For every registered tool and every required
    parameter [p] of it, when [p] is bound to a value that is not a string,
    the call behaves as the call without the key [p] does: it returns the
    failure whose message is [q is required], where [q] is the first required
    parameter in declaration order that is not given, and the client is not
    called; [q] is [p] itself when every required parameter declared before
    [p] is given. *)
Theorem required_non_string (t : Tool) p v arguments w :
  In t registered_tools ->
  In p (required_params t) ->
  arguments !! p = Some v ->
  is_string v = false ->
  CallTool (tool_name t) arguments w =
    CallTool (tool_name t) (delete p arguments) w
  /\ exists q,
    first_missing t arguments = Some q
    /\ fst (CallTool (tool_name t) arguments w) =
         fst (createErrorResponse (q ++ " is required") w)
    /\ calls (snd (CallTool (tool_name t) arguments w)) = calls w
    /\ ((forall q', In q' (before p (required_params t)) ->
                    given arguments q' = true) -> q = p).
Proof.
  intros Ht Hp Hv Hns.
  assert (given arguments p = false) as Hg.
  { unfold given. rewrite Hv. now destruct v. }
  assert (forall k, given (delete p arguments) k = given arguments k) as Hsame.
  { intros k. unfold given. destruct (decide (p = k)) as [<-|Hne].
    - rewrite lookup_delete_eq, Hv. now destruct v.
    - now rewrite lookup_delete_ne. }
  destruct (missing_required t arguments p Hp Hg) as (q & Hq & Hfirst).
  assert (first_missing t (delete p arguments) = Some q) as Hq'.
  { rewrite <- Hq. unfold first_missing. apply find_ext_in.
    intros k _. now rewrite Hsame. }
  split.
  - rewrite (validation_failure t arguments w q Ht Hq).
    now rewrite (validation_failure t (delete p arguments) w q Ht Hq').
  - exists q. split; [exact Hq|].
    destruct (validation_failure_keeps_calls t arguments w q Ht Hq).
    auto.
Qed.

(** C6. For every registered tool and every optional parameter [p] of it,
    binding [p] to a value that is not a string gives the same result, and
    the same world, as leaving [p] out; validation is not affected. *)
Theorem optional_non_string_as_absent (t : Tool) p v arguments w :
  In t registered_tools ->
  In p (optional_params t) ->
  is_string v = false ->
  CallTool (tool_name t) (<[p := v]> arguments) w =
    CallTool (tool_name t) (delete p arguments) w
  /\ first_missing t (<[p := v]> arguments) =
       first_missing t (delete p arguments).
Proof.
  intros Ht Hp Hv. simpl in Ht.
  destruct Ht as [<-|[<-|[<-|[<-|[]]]]]; simpl in Hp; try tauto.
  assert (forall k, k <> p ->
            <[p := v]> arguments !! k = delete p arguments !! k) as Hother.
  { intros k Hk. now rewrite lookup_insert_ne, lookup_delete_ne. }
  split.
  - rewrite !CallTool_create. unfold createEC2Instance, index.
    destruct Hp as [<-|[<-|[<-|[<-|[]]]]];
      rewrite lookup_insert_eq, lookup_delete_eq;
      rewrite !lookup_insert_ne, !lookup_delete_ne by discriminate;
      destruct v; try discriminate Hv; reflexivity.
  - unfold first_missing. apply find_ext_in. intros k Hk.
    unfold given. rewrite Hother; [reflexivity|].
    simpl in Hk. destruct Hp as [<-|[<-|[<-|[<-|[]]]]];
      destruct Hk as [<-|[<-|[]]]; discriminate.
Qed.

(** C9. For each registered tool, all arguments and every world,
    [CallTool] returns a result and no error. The one text content of the
    result encodes a payload that carries the timestamp of the call and a
    boolean under [success]; after a validation failure, and after a failure
    of the client, [success] is false and [error] holds the message. *)
Theorem CallTool_registered_result (t : Tool) arguments w :
  In t registered_tools ->
  exists payload : gmap string value,
    fst (CallTool (tool_name t) arguments w) =
      (Some (text_result (marshal_text (VMap payload))), None)
    /\ payload !! "timestamp" =
         Some (VString (time_Format (time_UTC (clock w))
                          "2006-01-02T15:04:05Z"))
    /\ (payload !! "success" = Some (VBool false)
        \/ payload !! "success" = Some (VBool true))
    /\ (forall q, first_missing t arguments = Some q ->
          payload !! "success" = Some (VBool false)
          /\ payload !! "error" = Some (VString (q ++ " is required")))
    /\ (forall c e,
          calls (snd (CallTool (tool_name t) arguments w)) =
            (calls w ++ [c])%list ->
          refusal c (provider w) = Some e ->
          payload !! "success" = Some (VBool false)
          /\ payload !! "error" =
               Some (VString ("failed to " ++ tool_action (tool_name t)
                                ++ ": " ++ e))).
Proof.
  intros Ht. destruct (first_missing t arguments) as [q|] eqn:Hq.
  - destruct (validation_failure_keeps_calls t arguments w q Ht Hq)
      as [Hres Hcalls].
    exists (errorData (q ++ " is required") (clock w)).
    destruct (errorData_lookup (q ++ " is required") (clock w))
      as (Hs & He & Hts).
    split; [exact Hres|]. split; [exact Hts|]. split; [now left|]. split.
    + now intros q' [= <-].
    + intros c e Hc _. rewrite Hcalls in Hc.
      apply (f_equal List.length) in Hc.
      rewrite length_app in Hc. simpl in Hc. lia.
  - destruct (validated_call t arguments w Ht Hq) as (c & Hcalls & Hres).
    destruct (refusal c (provider w)) as [e|] eqn:Hrefused.
    + set (message := "failed to " ++ tool_action (tool_name t) ++ ": " ++ e)
        in *.
      exists (errorData message (clock w)).
      destruct (errorData_lookup message (clock w)) as (Hs & He & Hts).
      split; [exact Hres|]. split; [exact Hts|]. split; [now left|]. split.
      * discriminate.
      * intros c' e' Hc He'. rewrite Hcalls in Hc.
        apply app_inj_tail in Hc as [_ <-].
        rewrite Hrefused in He'. injection He' as <-. now split.
    + destruct Hres as (message & data & Hres & Hd1 & Hd2).
      exists (responseData message data (clock w)).
      destruct (responseData_lookup message data (clock w) Hd1 Hd2)
        as (Hs & Hts).
      split; [exact Hres|]. split; [exact Hts|]. split; [now right|]. split.
      * discriminate.
      * intros c' e' Hc He'. rewrite Hcalls in Hc.
        apply app_inj_tail in Hc as [_ <-]. congruence.
Qed.

End ToolClaims.

(** C1 as stated fails on the input of the test [unknown tool] of the
    package: the call returns [nil] and an error, which differs from the
    result that [createErrorResponse] builds for the same message. *)
Lemma unknown_tool_is_a_go_error :
  fst (CallTool (P := Demo.platform) "unknown-tool" ∅ Demo.w0) =
    (None, Some "unknown tool: unknown-tool")
  /\ fst (CallTool (P := Demo.platform) "unknown-tool" ∅ Demo.w0) <>
       fst (createErrorResponse (P := Demo.platform)
              "unknown tool: unknown-tool" Demo.w0).
Proof. split; [reflexivity | discriminate]. Qed.

(** C1 at the tool name of the test [unknown tool]. *)
Lemma CallTool_unknown_tool_witness :
  CallTool (P := Demo.platform) "unknown-tool" ∅ Demo.w0 =
    ((None, Some "unknown tool: unknown-tool"), Demo.w0).
Proof.
  apply (CallTool_unknown_tool (P := Demo.platform) "unknown-tool" ∅ Demo.w0).
  intros t Ht. simpl in Ht.
  destruct Ht as [<-|[<-|[<-|[<-|[]]]]]; discriminate.
Defined.

(** C3 as stated fails for [create-ec2-instance] called with no arguments:
    [instanceType] is required and absent, yet the message names [imageId],
    which is checked first, and not [instanceType]. *)
Lemma absent_instanceType_reports_imageId :
  In create_ec2_instance registered_tools
  /\ In "instanceType" (required_params create_ec2_instance)
  /\ (∅ : gmap string value) !! "instanceType" = None
  /\ fst (CallTool (P := Demo.platform) "create-ec2-instance" ∅ Demo.w0) =
       fst (createErrorResponse (P := Demo.platform)
              "imageId is required" Demo.w0)
  /\ fst (CallTool (P := Demo.platform) "create-ec2-instance" ∅ Demo.w0) <>
       fst (createErrorResponse (P := Demo.platform)
              "instanceType is required" Demo.w0).
Proof.
  split; [simpl; tauto|]. split; [simpl; tauto|]. split; [reflexivity|].
  split; [reflexivity|]. intros H. vm_compute in H. discriminate.
Qed.

(** C3 at [start-ec2-instance] with no arguments, as in the test
    [start-ec2-instance missing instanceId]. *)
Lemma required_absent_or_empty_witness :
  exists q,
    first_missing start_ec2_instance ∅ = Some q
    /\ fst (CallTool (P := Demo.platform) "start-ec2-instance" ∅ Demo.w0) =
         fst (createErrorResponse (P := Demo.platform)
                (q ++ " is required") Demo.w0)
    /\ calls (snd (CallTool (P := Demo.platform) "start-ec2-instance" ∅
                     Demo.w0)) = calls Demo.w0
    /\ ((forall q', In q' (before "instanceId"
                             (required_params start_ec2_instance)) ->
                    given ∅ q' = true) -> q = "instanceId").
Proof.
  apply (required_absent_or_empty (P := Demo.platform)
           start_ec2_instance "instanceId" ∅ Demo.w0).
  - simpl. tauto.
  - simpl. tauto.
  - left. reflexivity.
Defined.

(** C10 as stated fails for [create-ec2-instance] called with a number as
    [instanceType] and nothing else: the message names [imageId], which is
    checked first, and not [instanceType]. *)
Lemma number_instanceType_reports_imageId :
  In "instanceType" (required_params create_ec2_instance)
  /\ Demo.number_as_instanceType !! "instanceType" = Some (VNumber (5 # 1))
  /\ fst (CallTool (P := Demo.platform) "create-ec2-instance"
            Demo.number_as_instanceType Demo.w0) =
       fst (createErrorResponse (P := Demo.platform)
              "imageId is required" Demo.w0)
  /\ fst (CallTool (P := Demo.platform) "create-ec2-instance"
            Demo.number_as_instanceType Demo.w0) <>
       fst (createErrorResponse (P := Demo.platform)
              "instanceType is required" Demo.w0).
Proof.
  split; [simpl; tauto|]. split; [reflexivity|].
  split; [reflexivity|]. intros H. vm_compute in H. discriminate.
Qed.

(** C10 at [stop-ec2-instance] with a boolean as [instanceId]. *)
Lemma required_non_string_witness :
  CallTool (P := Demo.platform) "stop-ec2-instance" Demo.boolean_as_instanceId
    Demo.w0 =
  CallTool (P := Demo.platform) "stop-ec2-instance"
    (delete "instanceId" Demo.boolean_as_instanceId) Demo.w0
  /\ exists q,
      first_missing stop_ec2_instance Demo.boolean_as_instanceId = Some q
      /\ fst (CallTool (P := Demo.platform) "stop-ec2-instance"
                Demo.boolean_as_instanceId Demo.w0) =
           fst (createErrorResponse (P := Demo.platform)
                  (q ++ " is required") Demo.w0)
      /\ calls (snd (CallTool (P := Demo.platform) "stop-ec2-instance"
                       Demo.boolean_as_instanceId Demo.w0)) = calls Demo.w0
      /\ ((forall q', In q' (before "instanceId"
                               (required_params stop_ec2_instance)) ->
                      given Demo.boolean_as_instanceId q' = true) ->
          q = "instanceId").
Proof.
  apply (required_non_string (P := Demo.platform)
           stop_ec2_instance "instanceId" (VBool true)
           Demo.boolean_as_instanceId Demo.w0).
  - simpl. tauto.
  - simpl. tauto.
  - reflexivity.
  - reflexivity.
Defined.

(** C6 at [create-ec2-instance] with a number as [keyName]. *)
Lemma optional_non_string_as_absent_witness :
  CallTool (P := Demo.platform) "create-ec2-instance"
    (<["keyName" := VNumber (7 # 1)]> Demo.create_micro) Demo.w0 =
  CallTool (P := Demo.platform) "create-ec2-instance"
    (delete "keyName" Demo.create_micro) Demo.w0
  /\ first_missing create_ec2_instance
       (<["keyName" := VNumber (7 # 1)]> Demo.create_micro) =
     first_missing create_ec2_instance
       (delete "keyName" Demo.create_micro).
Proof.
  apply (optional_non_string_as_absent (P := Demo.platform)
           create_ec2_instance "keyName" (VNumber (7 # 1))
           Demo.create_micro Demo.w0).
  - simpl. tauto.
  - simpl. tauto.
  - reflexivity.
Defined.

(** C9 at [terminate-ec2-instance] with no arguments. *)
Lemma CallTool_registered_result_witness :
  exists payload : gmap string value,
    fst (CallTool (P := Demo.platform) "terminate-ec2-instance" ∅ Demo.w0) =
      (Some (text_result (marshal_text (P := Demo.platform) (VMap payload))),
       None)
    /\ payload !! "timestamp" = Some (VString "1700000123")
    /\ (payload !! "success" = Some (VBool false)
        \/ payload !! "success" = Some (VBool true))
    /\ (forall q, first_missing terminate_ec2_instance ∅ = Some q ->
          payload !! "success" = Some (VBool false)
          /\ payload !! "error" = Some (VString (q ++ " is required")))
    /\ (forall c e,
          calls (snd (CallTool (P := Demo.platform) "terminate-ec2-instance"
                        ∅ Demo.w0)) = (calls Demo.w0 ++ [c])%list ->
          refusal (P := Demo.platform) c (provider Demo.w0) = Some e ->
          payload !! "success" = Some (VBool false)
          /\ payload !! "error" =
               Some (VString ("failed to " ++
                                tool_action "terminate-ec2-instance"
                                ++ ": " ++ e))).
Proof.
  apply (CallTool_registered_result (P := Demo.platform)
           terminate_ec2_instance ∅ Demo.w0).
  simpl. tauto.
Defined.

(** ** The tests of the package, run on the small platform *)

(** The test [create-ec2-instance missing imageId]. *)
Example test_create_missing_imageId :
  fst (CallTool (P := Demo.platform) "create-ec2-instance"
         Demo.only_instanceType Demo.w0) =
  fst (createErrorResponse (P := Demo.platform) "imageId is required" Demo.w0).
Proof. reflexivity. Qed.

(** The test [create-ec2-instance missing instanceType]. *)
Example test_create_missing_instanceType :
  fst (CallTool (P := Demo.platform) "create-ec2-instance"
         Demo.only_imageId Demo.w0) =
  fst (createErrorResponse (P := Demo.platform)
         "instanceType is required" Demo.w0).
Proof. reflexivity. Qed.

(** The test [valid arguments should pass validation], for
    [start-ec2-instance]: the client is asked to start the instance. *)
Example test_start_valid_arguments :
  calls (snd (CallTool (P := Demo.platform) "start-ec2-instance"
                Demo.start_known_instance Demo.w0)) =
    [CallStartEC2Instance "i-12345678"]
  /\ fst (CallTool (P := Demo.platform) "start-ec2-instance"
            Demo.start_known_instance Demo.w0) =
       fst (createSuccessResponse (P := Demo.platform)
              "EC2 instance start initiated successfully"
              (<["instanceId" := VString "i-12345678"]>
                 (<["action" := VString "start"]> ∅)) Demo.w0).
Proof. split; reflexivity. Qed.

(** The same for [create-ec2-instance], with an optional parameter. *)
Example test_create_valid_arguments :
  calls (snd (CallTool (P := Demo.platform) "create-ec2-instance"
                (<["keyName" := VString "my-key"]> Demo.create_micro)
                Demo.w0)) =
    [CallCreateEC2Instance
       {| ImageID := "ami-12345678"; InstanceType := "t3.micro";
          KeyName := "my-key"; SecurityGroupID := ""; SubnetID := "";
          Name := "" |}].
Proof. reflexivity. Qed.

(** ** Facts about the package [strings] *)

Lemma append_nil (r : string) : "" ++ r = r.
Proof. reflexivity. Qed.

Lemma append_cons (c : ascii) (p r : string) :
  String c p ++ r = String c (p ++ r).
Proof. reflexivity. Qed.

Lemma HasPrefix_app (p r : string) : strings.HasPrefix (p ++ r) p = true.
Proof.
  induction p as [|c p IH]; [reflexivity|].
  rewrite append_cons. simpl. now rewrite Ascii.eqb_refl.
Qed.

Lemma HasPrefix_inv (s p : string) :
  strings.HasPrefix s p = true ->
  s = p ++ strings.drop_bytes (String.length p) s.
Proof.
  revert s. induction p as [|c p IH]; intros s; simpl; [reflexivity|].
  destruct s as [|d s]; [discriminate|].
  destruct (Ascii.eqb c d) eqn:Hcd; [|discriminate].
  apply Ascii.eqb_eq in Hcd as ->. intros H.
  rewrite append_cons. f_equal. now apply IH.
Qed.

Lemma drop_bytes_app (p r : string) :
  strings.drop_bytes (String.length p) (p ++ r) = r.
Proof.
  induction p as [|c p IH]; [now destruct r|].
  rewrite append_cons. exact IH.
Qed.

Lemma TrimPrefix_app (p r : string) : strings.TrimPrefix (p ++ r) p = r.
Proof.
  unfold strings.TrimPrefix. rewrite HasPrefix_app. apply drop_bytes_app.
Qed.

Lemma TrimPrefix_inv (s p : string) :
  strings.HasPrefix s p = true -> s = p ++ strings.TrimPrefix s p.
Proof.
  intros H. unfold strings.TrimPrefix. rewrite H. now apply HasPrefix_inv.
Qed.

Lemma Split_not_nil (sep : ascii) (s : string) : strings.Split sep s <> [].
Proof.
  destruct s as [|c s]; simpl; [discriminate|].
  destruct (Ascii.eqb c sep); [discriminate|].
  destruct (strings.Split sep s); discriminate.
Qed.

(** Joining the pieces of a split gives the string back. *)
Lemma Join_Split (sep : ascii) (s : string) :
  strings.Join sep (strings.Split sep s) = s.
Proof.
  induction s as [|c s IH]; simpl; [reflexivity|].
  destruct (Ascii.eqb c sep) eqn:Hc.
  - apply Ascii.eqb_eq in Hc as ->.
    destruct (strings.Split sep s) as [|seg segs] eqn:Hs.
    + now destruct (Split_not_nil sep s).
    + simpl in *. now rewrite IH.
  - destruct (strings.Split sep s) as [|seg segs] eqn:Hs.
    + now destruct (Split_not_nil sep s).
    + destruct segs; simpl in *; now rewrite <- IH.
Qed.

(** ** Facts about the routing of [ReadResource] *)

Lemma resolve_InstancesList (uri : string) :
  resolve uri = InstancesList <-> uri = "aws://ec2/instances".
Proof.
  unfold resolve. split.
  - destruct (String.eqb uri "aws://ec2/instances") eqn:H.
    + intros _. now apply String.eqb_eq.
    + destruct (strings.HasPrefix uri "aws://ec2/instances/"); discriminate.
  - intros ->. reflexivity.
Qed.

Lemma resolve_InstanceDetail (uri instanceID : string) :
  resolve uri = InstanceDetail instanceID <->
  uri = "aws://ec2/instances/" ++ instanceID.
Proof.
  unfold resolve. split.
  - destruct (String.eqb uri "aws://ec2/instances"); [discriminate|].
    destruct (strings.HasPrefix uri "aws://ec2/instances/") eqn:H;
      [|discriminate].
    intros [= <-]. now apply TrimPrefix_inv.
  - intros ->.
    change (String.eqb ("aws://ec2/instances/" ++ instanceID)
              "aws://ec2/instances") with false.
    rewrite HasPrefix_app, TrimPrefix_app. reflexivity.
Qed.


Lemma match_segments_cons (p u : string) (ps us : list string) :
  Spec.match_segments (p :: ps) (u :: us) =
    match Spec.placeholder p with
    | Some name =>
        if String.eqb u "" then None
        else option_map (cons (name, u)) (Spec.match_segments ps us)
    | None => if String.eqb p u then Spec.match_segments ps us else None
    end.
Proof. reflexivity. Qed.

(** One literal segment of the template against one segment of the URI. *)
Lemma match_literal (p u : string) (ps us : list string) b :
  Spec.placeholder p = None ->
  Spec.match_segments (p :: ps) (u :: us) = Some b ->
  u = p /\ Spec.match_segments ps us = Some b.
Proof.
  intros Hp. rewrite match_segments_cons, Hp.
  destruct (String.eqb p u) eqn:E; [|discriminate].
  apply String.eqb_eq in E. now split.
Qed.

(** A URI that the template matches segment by segment is the prefix
    followed by the one bound segment. *)
Lemma template_match_inv (uri : string) (b : list (string * string)) :
  Spec.template_match registered_template uri = Some b ->
  exists instanceID,
    b = [("instanceId", instanceID)]
    /\ instanceID <> ""
    /\ uri = "aws://ec2/instances/" ++ instanceID.
Proof.
  unfold Spec.template_match.
  change (strings.Split "/" registered_template)
    with ["aws:"; ""; "ec2"; "instances"; "{instanceId}"].
  intros H. rewrite <- (Join_Split "/" uri).
  destruct (strings.Split "/" uri) as [|s1 [|s2 [|s3 [|s4 [|s5 rest]]]]];
    try discriminate H.
  - apply match_literal in H as [-> H]; [|reflexivity].
    discriminate H.
  - apply match_literal in H as [-> H]; [|reflexivity].
    apply match_literal in H as [-> H]; [|reflexivity].
    discriminate H.
  - apply match_literal in H as [-> H]; [|reflexivity].
    apply match_literal in H as [-> H]; [|reflexivity].
    apply match_literal in H as [-> H]; [|reflexivity].
    discriminate H.
  - apply match_literal in H as [-> H]; [|reflexivity].
    apply match_literal in H as [-> H]; [|reflexivity].
    apply match_literal in H as [-> H]; [|reflexivity].
    apply match_literal in H as [-> H]; [|reflexivity].
    discriminate H.
  - apply match_literal in H as [-> H]; [|reflexivity].
    apply match_literal in H as [-> H]; [|reflexivity].
    apply match_literal in H as [-> H]; [|reflexivity].
    apply match_literal in H as [-> H]; [|reflexivity].
    rewrite match_segments_cons in H.
    change (Spec.placeholder "{instanceId}") with (Some "instanceId") in H.
    destruct (String.eqb s5 "") eqn:E; [discriminate|].
    apply String.eqb_neq in E.
    destruct rest; [|discriminate H].
    injection H as <-. exists s5. repeat split. exact E.
Qed.

Section ResourceClaims.
Context {P : Platform}.
Implicit Types (w : World).

Lemma ReadResource_resolve (uri : string) :
  ReadResource uri =
    match resolve uri with
    | InstancesList => readEC2InstancesList
    | InstanceDetail instanceID => readEC2Instance instanceID
    | NotFound => ret (None, Some ("unknown resource URI: " ++ uri))
    end.
Proof.
  unfold ReadResource, resolve.
  destruct (String.eqb uri "aws://ec2/instances"); [reflexivity|].
  now destruct (strings.HasPrefix uri "aws://ec2/instances/").
Qed.

End ResourceClaims.

(** C2 as stated fails on a URI with one segment more than the template:
    the template does not match it segment by segment, yet [ReadResource]
    routes it to the instance-detail reader, which asks the client for the
    id with the slash in it. *)
Lemma extra_segment_is_matched :
  resolve "aws://ec2/instances/i-12345678/extra" =
    InstanceDetail "i-12345678/extra"
  /\ Spec.template_match registered_template
       "aws://ec2/instances/i-12345678/extra" = None
  /\ calls (snd (ReadResource (P := Demo.platform)
                   "aws://ec2/instances/i-12345678/extra" Demo.w0)) =
       [CallGetEC2Instance "i-12345678/extra"].
Proof. repeat split. Qed.


(** ** The message loop *)

Section StartClaims.
Context {S : MCPServer}.
Implicit Types (p : Process) (input : list ScanEvent).

(** The loop treats the input as if it ended where the signal is first
    seen. *)
Lemma Start_loop_live_prefix input p :
  Start_loop input p =
    (match cancellation input with
     | Some ctxErr => Some ctxErr
     | None => fst (Start_loop (live_prefix input) p)
     end,
     snd (Start_loop (live_prefix input) p)).
Proof.
  revert p. induction input as [|ev rest IH]; intros p; simpl;
    [reflexivity|].
  destruct (scan_ctx ev) as [ctxErr|] eqn:Hctx; simpl; [reflexivity|].
  rewrite Hctx.
  destruct (Nat.eqb (String.length (scan_line ev)) 0); [apply IH|].
  destruct (HandleMessage (scan_line ev) (mcpServer p)) as [response srv'].
  destruct response as [message|]; [|apply IH].
  destruct (json_Marshal message); apply IH.
Qed.

(** While the context is live every non-empty line is handled, in
    order, and the loop runs to the end of the input. *)
Lemma Start_loop_live input p :
  cancellation input = None ->
  fst (Start_loop input p) = None
  /\ handled (snd (Start_loop input p)) =
       (handled p ++ dispatched input)%list.
Proof.
  revert p. induction input as [|ev rest IH]; intros p; simpl.
  - intros _. now rewrite app_nil_r.
  - unfold dispatched. simpl.
    destruct (scan_ctx ev) as [ctxErr|] eqn:Hctx; [discriminate|].
    intros Hrest.
    destruct (Nat.eqb (String.length (scan_line ev)) 0); simpl;
      [now apply IH|].
    destruct (HandleMessage (scan_line ev) (mcpServer p)) as [response srv'].
    assert (forall out,
               fst (Start_loop rest
                      {| mcpServer := srv'; stdout := out;
                         handled := (handled p ++ [scan_line ev])%list |})
               = None
               /\ handled
                    (snd (Start_loop rest
                            {| mcpServer := srv'; stdout := out;
                               handled :=
                                 (handled p ++ [scan_line ev])%list |}))
                  = (handled p ++ scan_line ev :: dispatched rest)%list)
      as Hstep.
    { intros out. destruct (IH {| mcpServer := srv'; stdout := out;
                                  handled := (handled p ++ [scan_line ev])%list |}
                              Hrest) as [H1 H2].
      split; [exact H1|]. rewrite H2. simpl.
      now rewrite <- app_assoc. }
    destruct response as [message|]; [|apply Hstep].
    destruct (json_Marshal message); apply Hstep.
Qed.

Lemma cancellation_live_prefix input :
  cancellation (live_prefix input) = None.
Proof.
  induction input as [|ev rest IH]; simpl; [reflexivity|].
  destruct (scan_ctx ev) eqn:H; simpl; [reflexivity|]. now rewrite H.
Qed.

(** C7. In every run of [Start] the lines handed to [HandleMessage] are
    the non-empty lines read before the first line at which the
    cancellation signal is set; the process ends in the state it would have
    reached had the input stopped there, so neither the pending line nor any
    later one is handled; and [Start] returns the cancellation condition
    when the signal was seen, the error of the scanner otherwise. *)
Theorem Start_checks_cancellation_first input scannerErr p :
  handled (snd (Start input scannerErr p)) =
    (handled p ++ dispatched (live_prefix input))%list
  /\ snd (Start input scannerErr p) =
       snd (Start (live_prefix input) scannerErr p)
  /\ fst (Start input scannerErr p) =
       match cancellation input with
       | Some ctxErr => Some ctxErr
       | None => scannerErr
       end.
Proof.
  destruct (Start_loop_live (live_prefix input) p
              (cancellation_live_prefix input)) as [Hnone Hhandled].
  assert (snd (Start input scannerErr p) =
            snd (Start_loop (live_prefix input) p)) as Hsnd.
  { unfold Start. rewrite Start_loop_live_prefix.
    now destruct (cancellation input); [|rewrite Hnone]. }
  assert (snd (Start (live_prefix input) scannerErr p) =
            snd (Start_loop (live_prefix input) p)) as Hsnd'.
  { unfold Start.
    destruct (Start_loop (live_prefix input) p) as [[e|] p']; reflexivity. }
  split; [now rewrite Hsnd|]. split; [now rewrite Hsnd, Hsnd'|].
  unfold Start. rewrite Start_loop_live_prefix.
  now destruct (cancellation input); [|rewrite Hnone].
Qed.

End StartClaims.

(** A run on three handled or skipped lines and a cancellation. *)
Example Start_three_lines :
  Start (S := Demo.echo) Demo.three_lines None Demo.p0 =
    (Some "context canceled",
     @Build_Process Demo.echo 1%nat ["first"; newline] ["first"]).
Proof. reflexivity. Qed.

(** * Further properties of the package *)

(** ** The tool handlers *)

Lemma app_one_neq {A} (l : list A) (x : A) : (l ++ [x])%list <> l.
Proof.
  intros H. apply (f_equal List.length) in H.
  rewrite length_app in H. simpl in H. lia.
Qed.

Section ToolExtras.
Context {P : Platform}.
Implicit Types (arguments : gmap string value) (w : World).

(** X1. A registered tool calls the client exactly once when validation
    passes, and otherwise leaves the world, provider included, as it
    was. *)
Theorem CallTool_calls_client_iff_valid (t : Tool) arguments w :
  In t registered_tools ->
  ((exists c, calls (snd (CallTool (tool_name t) arguments w)) =
                (calls w ++ [c])%list)
   <-> first_missing t arguments = None)
  /\ (snd (CallTool (tool_name t) arguments w) = w
      <-> first_missing t arguments <> None).
Proof.
  intros Ht. destruct (first_missing t arguments) as [q|] eqn:Hq.
  - rewrite (validation_failure t arguments w q Ht Hq). simpl. split; split.
    + intros [c Hc]. symmetry in Hc. now apply app_one_neq in Hc.
    + discriminate.
    + discriminate.
    + reflexivity.
  - destruct (validated_call t arguments w Ht Hq) as (c & Hc & _).
    split; split.
    + reflexivity.
    + intros _. now exists c.
    + intros Hw. rewrite Hw in Hc. symmetry in Hc.
      now apply app_one_neq in Hc.
    + congruence.
Qed.

Lemma string_at_given arguments k :
  given arguments k = true ->
  arguments !! k = Some (VString (string_at arguments k))
  /\ String.eqb (string_at arguments k) "" = false.
Proof.
  intros H. destruct (given_inv _ _ H) as (s & Hs & Hne).
  unfold string_at. now rewrite Hs.
Qed.

(** The answer of the provider to the call of a single-parameter handler,
    with the payload of the success spelled out. *)
Ltac by_accepted op s w :=
  unfold bind, invoke, instance_call, refusal; simpl;
  destruct (op s (provider w)) as [[?e|] ?s']; simpl;
  split; try reflexivity; try discriminate;
  intros _; eexists; split; [reflexivity|];
  repeat split; try reflexivity; now eexists.

(** X2. Each of start, stop and terminate, given a non-empty string as
    [instanceId], makes the one call of its kind on the client with that
    string unchanged; when the client accepts, the payload reports success,
    echoes the instance id and names the action, and has no [error]. *)
Theorem instance_tool_call_and_success (verb : string) arguments w :
  In verb instance_verbs ->
  given arguments "instanceId" = true ->
  calls (snd (CallTool (verb ++ "-ec2-instance") arguments w)) =
    (calls w ++ [instance_call verb (string_at arguments "instanceId")])%list
  /\ (refusal (instance_call verb (string_at arguments "instanceId"))
        (provider w) = None ->
      exists payload : gmap string value,
        fst (CallTool (verb ++ "-ec2-instance") arguments w) =
          (Some (text_result (marshal_text (VMap payload))), None)
        /\ payload !! "success" = Some (VBool true)
        /\ payload !! "instanceId" =
             Some (VString (string_at arguments "instanceId"))
        /\ payload !! "action" = Some (VString verb)
        /\ is_Some (payload !! "message")
        /\ payload !! "error" = None).
Proof.
  intros Hverb Hgiven.
  destruct (string_at_given _ _ Hgiven) as [Hs Hne].
  set (s := string_at arguments "instanceId") in *.
  simpl in Hverb. destruct Hverb as [<-|[<-|[<-|[]]]].
  - change (CallTool ("start" ++ "-ec2-instance") arguments w)
      with (startEC2Instance arguments w).
    rewrite (startEC2Instance_given _ _ _ Hs Hne).
    unfold StartEC2Instance. by_accepted aws_StartEC2Instance s w.
  - change (CallTool ("stop" ++ "-ec2-instance") arguments w)
      with (stopEC2Instance arguments w).
    rewrite (stopEC2Instance_given _ _ _ Hs Hne).
    unfold StopEC2Instance. by_accepted aws_StopEC2Instance s w.
  - change (CallTool ("terminate" ++ "-ec2-instance") arguments w)
      with (terminateEC2Instance arguments w).
    rewrite (terminateEC2Instance_given _ _ _ Hs Hne).
    unfold TerminateEC2Instance. by_accepted aws_TerminateEC2Instance s w.
Qed.

(** An optional parameter as the handler reads it. *)
Lemma optional_as_string_at arguments k :
  match arguments !! k with
  | Some val => fst (assert_string val)
  | None => ""
  end = string_at arguments k.
Proof. unfold string_at. now destruct (arguments !! k) as [[]|]. Qed.

Lemma createEC2Instance_given arguments w :
  given arguments "imageId" = true ->
  given arguments "instanceType" = true ->
  createEC2Instance arguments w =
    (r <- CreateEC2Instance (params_of arguments) ;;
     match r with
     | Err err =>
         createErrorResponse ("failed to create EC2 instance: " ++ err)
     | Ok resource =>
         createSuccessResponse "EC2 instance created successfully"
           (<["instanceId" := VString (ID resource)]>
              (<["state" := VString (State resource)]>
                 (<["instanceType" :=
                      index (Details resource) "instanceType"]> ∅)))
     end) w.
Proof.
  intros H1 H2.
  destruct (string_at_given _ _ H1) as [Hs1 Hne1].
  destruct (string_at_given _ _ H2) as [Hs2 Hne2].
  unfold createEC2Instance, index.
  rewrite Hs1. simpl. rewrite Hne1.
  rewrite Hs2. simpl. rewrite Hne2.
  rewrite !optional_as_string_at. reflexivity.
Qed.

(** X3. With both required parameters given, [create-ec2-instance] makes
    one call whose parameters are the strings bound to the six keys, a
    missing or non-string optional one counting as empty; when the client
    returns a resource, the payload reports success with the id and state of
    the resource and its [instanceType] detail, nil when it has none. *)
Theorem create_call_and_success arguments w :
  given arguments "imageId" = true ->
  given arguments "instanceType" = true ->
  calls (snd (CallTool "create-ec2-instance" arguments w)) =
    (calls w ++ [CallCreateEC2Instance (params_of arguments)])%list
  /\ (forall resource,
        fst (aws_CreateEC2Instance (params_of arguments) (provider w)) =
          Ok resource ->
        exists payload : gmap string value,
          fst (CallTool "create-ec2-instance" arguments w) =
            (Some (text_result (marshal_text (VMap payload))), None)
          /\ payload !! "success" = Some (VBool true)
          /\ payload !! "instanceId" = Some (VString (ID resource))
          /\ payload !! "state" = Some (VString (State resource))
          /\ payload !! "instanceType" =
               Some (default VNil (Details resource !! "instanceType"))
          /\ payload !! "error" = None).
Proof.
  intros H1 H2. rewrite CallTool_create, (createEC2Instance_given _ _ H1 H2).
  unfold bind, CreateEC2Instance, invoke.
  destruct (aws_CreateEC2Instance (params_of arguments) (provider w))
    as [[resource|e] s']; simpl; split; try reflexivity; try discriminate.
  intros ? [= <-]. eexists. split; [reflexivity|].
  repeat split; reflexivity.
Qed.

(** X4. The payload of [createSuccessResponse] holds every entry of
    [data], also where [data] uses one of the keys [success], [message] and
    [timestamp]: the entry of [data] replaces the standard one. Its keys are
    those of [data] and the three standard ones. *)
Theorem createSuccessResponse_payload message (data : gmap string value) w :
  exists payload : gmap string value,
    fst (createSuccessResponse message data w) =
      (Some (text_result (marshal_text (VMap payload))), None)
    /\ (forall k v, data !! k = Some v -> payload !! k = Some v)
    /\ (data !! "success" = None -> payload !! "success" = Some (VBool true))
    /\ (data !! "message" = None ->
        payload !! "message" = Some (VString message))
    /\ dom payload = dom data ∪ {["success"; "message"; "timestamp"]}.
Proof.
  exists (responseData message data (clock w)). split; [reflexivity|].
  unfold responseData. split; [|split; [|split]].
  - intros k v Hk. now apply lookup_union_Some_l.
  - intros H. now rewrite lookup_union_r.
  - intros H. now rewrite lookup_union_r.
  - rewrite dom_union_L, !dom_insert_L, dom_empty_L. set_solver.
Qed.

(** X5. Each handler of [registerTools] calls [CallTool] under the name of
    the tool it is registered with, so it always returns a result and no
    error when the arguments are a map; when they are anything else it
    returns the error [invalid arguments format] and leaves the world as it
    was. *)
Theorem tool_handlers_registered_by_name (t : Tool)
    (handler : value -> M (option CallToolResult * option error))
    (Arguments : value) w :
  In (t, handler) registerTools ->
  match Arguments with
  | VMap arguments =>
      handler Arguments w = CallTool (tool_name t) arguments w
      /\ exists result, fst (handler Arguments w) = (Some result, None)
  | _ => handler Arguments w = ((None, Some "invalid arguments format"), w)
  end.
Proof.
  intros Hin. simpl in Hin.
  assert (In t registered_tools) as Ht.
  { simpl. destruct Hin as [[= <- _]|[[= <- _]|[[= <- _]|[[= <- _]|[]]]]];
      tauto. }
  destruct Arguments as [| | | | | |arguments];
    try (destruct Hin as [[= _ <-]|[[= _ <-]|[[= _ <-]|[[= _ <-]|[]]]]];
         reflexivity).
  assert (handler (VMap arguments) w = CallTool (tool_name t) arguments w)
    as Heq.
  { destruct Hin as [[= <- <-]|[[= <- <-]|[[= <- <-]|[[= <- <-]|[]]]]];
      reflexivity. }
  split; [exact Heq|]. rewrite Heq.
  destruct (first_missing t arguments) as [q|] eqn:Hq.
  - rewrite (validation_failure t arguments w q Ht Hq). now eexists.
  - destruct (validated_call t arguments w Ht Hq) as (c & _ & Hres).
    destruct (refusal c (provider w)) as [e|].
    + rewrite Hres. now eexists.
    + destruct Hres as (message & data & -> & _). now eexists.
Qed.

End ToolExtras.

(** X1 at [start-ec2-instance] for an instance of the fleet. *)
Lemma CallTool_calls_client_iff_valid_witness :
  ((exists c,
       calls (snd (CallTool (P := Demo.platform) "start-ec2-instance"
                     Demo.start_known_instance Demo.w0)) =
         (calls Demo.w0 ++ [c])%list)
   <-> first_missing start_ec2_instance Demo.start_known_instance = None)
  /\ (snd (CallTool (P := Demo.platform) "start-ec2-instance"
             Demo.start_known_instance Demo.w0) = Demo.w0
      <-> first_missing start_ec2_instance Demo.start_known_instance
          <> None).
Proof.
  apply (CallTool_calls_client_iff_valid (P := Demo.platform)
           start_ec2_instance Demo.start_known_instance Demo.w0).
  simpl. tauto.
Defined.

(** X2 at [stop-ec2-instance] for an instance of the fleet. *)
Lemma instance_tool_call_and_success_witness :
  calls (snd (CallTool (P := Demo.platform) ("stop" ++ "-ec2-instance")
                Demo.start_known_instance Demo.w0)) =
    (calls Demo.w0 ++
     [instance_call "stop"
        (string_at Demo.start_known_instance "instanceId")])%list
  /\ (refusal (P := Demo.platform)
        (instance_call "stop"
           (string_at Demo.start_known_instance "instanceId"))
        (provider Demo.w0) = None ->
      exists payload : gmap string value,
        fst (CallTool (P := Demo.platform) ("stop" ++ "-ec2-instance")
               Demo.start_known_instance Demo.w0) =
          (Some (text_result
                   (marshal_text (P := Demo.platform) (VMap payload))), None)
        /\ payload !! "success" = Some (VBool true)
        /\ payload !! "instanceId" =
             Some (VString (string_at Demo.start_known_instance "instanceId"))
        /\ payload !! "action" = Some (VString "stop")
        /\ is_Some (payload !! "message")
        /\ payload !! "error" = None).
Proof.
  apply (instance_tool_call_and_success (P := Demo.platform) "stop"
           Demo.start_known_instance Demo.w0).
  - simpl. tauto.
  - reflexivity.
Defined.

(** X3 at the launch of a micro instance. *)
Lemma create_call_and_success_witness :
  calls (snd (CallTool (P := Demo.platform) "create-ec2-instance"
                Demo.create_micro Demo.w0)) =
    (calls Demo.w0 ++
     [CallCreateEC2Instance (params_of Demo.create_micro)])%list
  /\ (forall resource,
        fst (aws_CreateEC2Instance (Platform := Demo.platform)
               (params_of Demo.create_micro) (provider Demo.w0)) =
          Ok resource ->
        exists payload : gmap string value,
          fst (CallTool (P := Demo.platform) "create-ec2-instance"
                 Demo.create_micro Demo.w0) =
            (Some (text_result
                     (marshal_text (P := Demo.platform) (VMap payload))),
             None)
          /\ payload !! "success" = Some (VBool true)
          /\ payload !! "instanceId" = Some (VString (ID resource))
          /\ payload !! "state" = Some (VString (State resource))
          /\ payload !! "instanceType" =
               Some (default VNil (Details resource !! "instanceType"))
          /\ payload !! "error" = None).
Proof.
  apply (create_call_and_success (P := Demo.platform)
           Demo.create_micro Demo.w0); reflexivity.
Defined.

(** X5 at the handler of [start-ec2-instance] with [null] for the
    arguments. *)
Lemma tool_handlers_registered_by_name_witness :
  startToolHandler (P := Demo.platform) VNil Demo.w0 =
    ((None, Some "invalid arguments format"), Demo.w0).
Proof.
  apply (tool_handlers_registered_by_name (P := Demo.platform)
           start_ec2_instance startToolHandler VNil Demo.w0).
  simpl. tauto.
Defined.

(** ** The resource handlers *)

Section ResourceExtras.
Context {P : Platform}.
Implicit Types (w : World).

(** The two shapes of what [ReadResource] returns. *)
Lemma ReadResource_shape (uri : string) w :
  (exists err, fst (ReadResource uri w) = (None, Some err))
  \/ (exists text,
        fst (ReadResource uri w) =
          (Some {| Contents := [ {| URI := uri;
                                    MIMEType := "application/json";
                                    Text := text |} ] |}, None)).
Proof.
  rewrite ReadResource_resolve.
  destruct (resolve uri) as [|instanceID|] eqn:Hr.
  - apply resolve_InstancesList in Hr as ->.
    unfold readEC2InstancesList, bind, ListEC2Instances, invoke.
    destruct (aws_ListEC2Instances (provider w)) as [[instances|err] s'];
      simpl; [|left; now eexists].
    destruct (json_MarshalIndent _) as [text|err]; simpl;
      [right|left]; now eexists.
  - apply resolve_InstanceDetail in Hr as ->.
    unfold readEC2Instance, bind, GetEC2Instance, invoke.
    destruct (aws_GetEC2Instance instanceID (provider w))
      as [[instance|err] s']; simpl; [|left; now eexists].
    destruct (json_MarshalIndent _) as [text|err]; simpl;
      [right|left]; now eexists.
  - left. now eexists.
Qed.

(** The calls that [ReadResource] makes on the client. *)
Lemma ReadResource_calls (uri : string) w :
  calls (snd (ReadResource uri w)) =
    (calls w ++
     match resolve uri with
     | InstancesList => [CallListEC2Instances]
     | InstanceDetail instanceID => [CallGetEC2Instance instanceID]
     | NotFound => []
     end)%list
  /\ clock (snd (ReadResource uri w)) = clock w.
Proof.
  rewrite ReadResource_resolve.
  destruct (resolve uri) as [|instanceID|] eqn:Hr.
  - unfold readEC2InstancesList, bind, ListEC2Instances, invoke.
    destruct (aws_ListEC2Instances (provider w)) as [[instances|err] s'];
      simpl; [|now split].
    destruct (json_MarshalIndent _); simpl; now split.
  - unfold readEC2Instance, bind, GetEC2Instance, invoke.
    destruct (aws_GetEC2Instance instanceID (provider w))
      as [[instance|err] s']; simpl; [|now split].
    destruct (json_MarshalIndent _); simpl; now split.
  - simpl. rewrite app_nil_r. now split.
Qed.

(** X6. [ReadResource] returns either no result and an error, or no error
    and a result with exactly one content, whose URI is the URI asked for
    and whose MIME type is [application/json]: never both, never neither. *)
Theorem ReadResource_result_shape (uri : string) w :
  (exists err, fst (ReadResource uri w) = (None, Some err))
  \/ (exists text,
        fst (ReadResource uri w) =
          (Some {| Contents := [ {| URI := uri;
                                    MIMEType := "application/json";
                                    Text := text |} ] |}, None)).
Proof. apply ReadResource_shape. Qed.

(** X8. When the client refuses the call that [ReadResource] makes, with
    the error [e], the read returns no result and the error
    [failed to list EC2 instances: e] for the listing,
    [failed to get EC2 instance: e] for the lookup. *)
Theorem ReadResource_client_error (uri : string) w c e :
  calls (snd (ReadResource uri w)) = (calls w ++ [c])%list ->
  refusal c (provider w) = Some e ->
  fst (ReadResource uri w) =
    (None,
     Some (match c with
           | CallListEC2Instances => "failed to list EC2 instances: "
           | _ => "failed to get EC2 instance: "
           end ++ e)).
Proof.
  destruct (ReadResource_calls uri w) as (Hcalls & _).
  rewrite Hcalls. intros Hc. apply app_inv_head in Hc.
  rewrite ReadResource_resolve.
  destruct (resolve uri) as [|instanceID|]; try discriminate;
    injection Hc as <-; unfold refusal.
  - unfold readEC2InstancesList, bind, ListEC2Instances, invoke.
    destruct (aws_ListEC2Instances (provider w)) as [[instances|err] s'];
      simpl; [discriminate|]. now intros [= ->].
  - unfold readEC2Instance, bind, GetEC2Instance, invoke.
    destruct (aws_GetEC2Instance instanceID (provider w))
      as [[instance|err] s']; simpl; [discriminate|]. now intros [= ->].
Qed.

(** X9. The two handlers of [registerResources] never panic: each returns
    either an error and no contents or, with no error, the one content of
    the read. The handler of the list resource answers with the list
    whatever URI the request carries. *)
Theorem resource_handlers_return (requestURI : string) w :
  (exists contents err,
      fst (listResourceHandler requestURI w) = Returns (contents, err)
      /\ fst (listResourceHandler requestURI w) =
           fst (listResourceHandler "aws://ec2/instances" w)
      /\ match err with
         | Some _ => contents = []
         | None => exists text,
             contents = [ {| URI := "aws://ec2/instances";
                             MIMEType := "application/json";
                             Text := text |} ]
         end)
  /\ (exists contents err,
        fst (templateResourceHandler requestURI w) = Returns (contents, err)
        /\ match err with
           | Some _ => contents = []
           | None => exists text,
               contents = [ {| URI := requestURI;
                               MIMEType := "application/json";
                               Text := text |} ]
           end).
Proof.
  split.
  - unfold listResourceHandler, bind, ret.
    destruct (ReadResource_shape "aws://ec2/instances" w)
      as [[err H]|[text H]];
      destruct (ReadResource "aws://ec2/instances" w) as [r w'];
      simpl in *; subst r; simpl.
    + exists [], (Some err). now repeat split.
    + eexists _, None. repeat split. now exists text.
  - unfold templateResourceHandler, bind, ret.
    destruct (ReadResource_shape requestURI w)
      as [[err H]|[text H]];
      destruct (ReadResource requestURI w) as [r w'];
      simpl in *; subst r; simpl.
    + exists [], (Some err). now repeat split.
    + eexists _, None. repeat split. now exists text.
Qed.

End ResourceExtras.

(** X8 at an instance that the provider does not know. *)
Lemma ReadResource_client_error_witness :
  fst (ReadResource (P := Demo.platform) "aws://ec2/instances/i-0abc"
         Demo.w0) =
    (None,
     Some ("failed to get EC2 instance: " ++ "instance i-0abc not found")).
Proof.
  apply (ReadResource_client_error (P := Demo.platform)
           "aws://ec2/instances/i-0abc" Demo.w0
           (CallGetEC2Instance "i-0abc") "instance i-0abc not found");
    reflexivity.
Defined.

(** ** Counting with [increment] *)

Lemma int_wrap_small (z : Z) :
  (- 2 ^ 63 <= z < 2 ^ 63)%Z -> int_wrap z = z.
Proof. intros H. unfold int_wrap. rewrite Z.mod_small; lia. Qed.

Lemma occurrences_cons (k a : string) (keys : list string) :
  occurrences k (a :: keys) =
    if String.eqb k a then S (occurrences k keys) else occurrences k keys.
Proof. unfold occurrences. simpl. now destruct (String.eqb k a). Qed.

Lemma occurrences_le (k : string) (keys : list string) :
  occurrences k keys <= List.length keys.
Proof. unfold occurrences. apply List.filter_length_le. Qed.

(** A counter that cannot overflow holds, for each key, what it held
    before plus the number of occurrences of the key. *)
Lemma tally_lookup (keys : list string) (m : gmap string Z) (k : string) :
  (0 <= default 0 (m !! k))%Z ->
  (default 0 (m !! k) + Z.of_nat (occurrences k keys) < 2 ^ 63)%Z ->
  fold_left increment keys m !! k =
    if Nat.eqb (occurrences k keys) 0 then m !! k
    else Some (default 0 (m !! k) + Z.of_nat (occurrences k keys))%Z.
Proof.
  revert m. induction keys as [|a keys IH]; intros m Hpos Hbound;
    [reflexivity|].
  rewrite occurrences_cons in *. simpl fold_left.
  destruct (String.eqb k a) eqn:Hka.
  - apply String.eqb_eq in Hka as <-.
    assert (increment m k !! k = Some (default 0 (m !! k) + 1)%Z) as Hk.
    { unfold increment. rewrite lookup_insert_eq. f_equal.
      apply int_wrap_small. lia. }
    rewrite IH.
    2: { rewrite Hk. simpl. lia. }
    2: { rewrite Hk. simpl. lia. }
    rewrite Hk. simpl.
    destruct (Nat.eqb (occurrences k keys) 0) eqn:H0.
    + apply Nat.eqb_eq in H0. rewrite H0. f_equal; lia.
    + f_equal; lia.
  - apply String.eqb_neq in Hka.
    assert (increment m a !! k = m !! k) as Hk.
    { unfold increment. now rewrite lookup_insert_ne. }
    rewrite IH.
    2: { now rewrite Hk. }
    2: { now rewrite Hk. }
    now rewrite Hk.
Qed.

Lemma omap_length_le {A B} (f : A -> option B) (l : list A) :
  List.length (omap f l) <= List.length l.
Proof.
  induction l as [|a l IH]; [reflexivity|].
  change (omap f (a :: l))
    with (match f a with Some b => b :: omap f l | None => omap f l end).
  destruct (f a); simpl; lia.
Qed.

Lemma tally_empty (keys : list string) (k : string) :
  (Z.of_nat (List.length keys) < 2 ^ 63)%Z ->
  fold_left increment keys ∅ !! k =
    if Nat.eqb (occurrences k keys) 0 then None
    else Some (Z.of_nat (occurrences k keys)).
Proof.
  intros H. pose proof (occurrences_le k keys) as Hle.
  rewrite tally_lookup.
  - rewrite lookup_empty. reflexivity.
  - rewrite lookup_empty. simpl default. lia.
  - rewrite lookup_empty. simpl default. lia.
Qed.

(** ** The formatters *)

Section FormatExtras.
Context {P : Platform}.

Lemma type_of_assert (instance : AWSResource Time) :
  assert_string (index (Details instance) "instanceType") =
    match type_of instance with
    | Some s => (s, true)
    | None => ("", false)
    end.
Proof.
  unfold type_of, index.
  now destruct (Details instance !! "instanceType") as [[]|].
Qed.

(** The loop of [formatInstancesForAI], accumulators included. *)
Lemma formatLoop_spec (instances : list (AWSResource Time))
    (entries : list value) (stateCount typeCount : gmap string Z) :
  formatLoop instances entries stateCount typeCount =
    ((entries ++ map (fun i => VMap (formatListEntry i)) instances)%list,
     fold_left increment (map State instances) stateCount,
     fold_left increment (omap type_of instances) typeCount).
Proof.
  revert entries stateCount typeCount.
  induction instances as [|i rest IH]; intros entries stateCount typeCount;
    simpl.
  - now rewrite app_nil_r.
  - rewrite type_of_assert.
    destruct (type_of i) as [s|]; rewrite IH, <- app_assoc; reflexivity.
Qed.

(** The two summaries of [formatInstancesForAI]. *)
Lemma formatInstancesForAI_counts (instances : list (AWSResource Time)) :
  (Z.of_nat (List.length instances) < 2 ^ 63)%Z ->
  exists byState byType : gmap string Z,
    formatInstancesForAI instances !! "summary_by_state" =
      Some (VMap (VInt <$> byState))
    /\ formatInstancesForAI instances !! "summary_by_type" =
         Some (VMap (VInt <$> byType))
    /\ (forall s,
          byState !! s =
            if Nat.eqb (occurrences s (map State instances)) 0 then None
            else Some (Z.of_nat (occurrences s (map State instances))))
    /\ (forall s,
          byType !! s =
            if Nat.eqb (occurrences s (omap type_of instances)) 0 then None
            else Some (Z.of_nat (occurrences s (omap type_of instances)))).
Proof.
  intros Hlen. unfold formatInstancesForAI. rewrite formatLoop_spec.
  eexists _, _. split; [reflexivity|]. split; [reflexivity|]. split.
  - intros s. apply tally_empty. now rewrite length_map.
  - intros s. apply tally_empty.
    pose proof (omap_length_le type_of instances). lia.
Qed.

Lemma formatInstancesForAI_total (instances : list (AWSResource Time)) :
  formatInstancesForAI instances !! "total_instances" =
    Some (VInt (Z.of_nat (List.length instances))).
Proof. unfold formatInstancesForAI. now rewrite formatLoop_spec. Qed.

(** X10. The summary of [formatInstancesForAI] has four keys; the total
    is the number of instances, and [instances] holds one entry for each
    instance, in the order of the input. *)
Theorem formatInstancesForAI_entries (instances : list (AWSResource Time)) :
  formatInstancesForAI instances !! "total_instances" =
    Some (VInt (Z.of_nat (List.length instances)))
  /\ formatInstancesForAI instances !! "instances" =
       Some (VSlice (map (fun i => VMap (formatListEntry i)) instances))
  /\ dom (formatInstancesForAI instances) =
       {["total_instances"; "instances"; "summary_by_state";
         "summary_by_type"]}.
Proof.
  split; [apply formatInstancesForAI_total|].
  unfold formatInstancesForAI. rewrite formatLoop_spec. simpl.
  split; [reflexivity|].
  rewrite !dom_insert_L, dom_empty_L. set_solver.
Qed.

(** X11. For a slice whose length fits a Go [int], the summary by state
    maps each state that occurs to the number of instances in it and has no
    other key; the summary by type does the same for the instance types, and
    counts only the instances whose [instanceType] detail is a string. *)
Theorem formatInstancesForAI_summaries (instances : list (AWSResource Time)) :
  (Z.of_nat (List.length instances) < 2 ^ 63)%Z ->
  exists byState byType : gmap string Z,
    formatInstancesForAI instances !! "summary_by_state" =
      Some (VMap (VInt <$> byState))
    /\ formatInstancesForAI instances !! "summary_by_type" =
         Some (VMap (VInt <$> byType))
    /\ (forall s,
          byState !! s =
            if Nat.eqb (occurrences s (map State instances)) 0 then None
            else Some (Z.of_nat (occurrences s (map State instances))))
    /\ (forall s,
          byType !! s =
            if Nat.eqb (occurrences s (omap type_of instances)) 0 then None
            else Some (Z.of_nat (occurrences s (omap type_of instances)))).
Proof. apply formatInstancesForAI_counts. Qed.

(** X12. An entry of the list always has [id], [state], [region] and
    [type], the last nil when the instance has no [instanceType] detail; it
    has [name] exactly when the instance has a [Name] tag, and [public_ip]
    and [private_ip] exactly when the detail is present and not nil. *)
Theorem formatListEntry_keys (instance : AWSResource Time) :
  formatListEntry instance !! "id" = Some (VString (ID instance))
  /\ formatListEntry instance !! "state" = Some (VString (State instance))
  /\ formatListEntry instance !! "region" = Some (VString (Region instance))
  /\ formatListEntry instance !! "type" =
       Some (default VNil (Details instance !! "instanceType"))
  /\ formatListEntry instance !! "name" =
       VString <$> (Tags instance !! "Name")
  /\ formatListEntry instance !! "public_ip" =
       match Details instance !! "publicIpAddress" with
       | Some VNil | None => None
       | Some ip => Some ip
       end
  /\ formatListEntry instance !! "private_ip" =
       match Details instance !! "privateIpAddress" with
       | Some VNil | None => None
       | Some ip => Some ip
       end.
Proof.
  unfold formatListEntry, index.
  destruct (Tags instance !! "Name") as [name|];
    destruct (Details instance !! "publicIpAddress") as [[]|];
    destruct (Details instance !! "privateIpAddress") as [[]|];
    simpl; repeat split; reflexivity.
Qed.

(** X13. The detail view always has a [name]: the [Name] tag when the
    instance has one, even an empty one, and the id otherwise. It has
    [environment] exactly when the [Environment] tag is present and not
    empty. Tags and details are passed on whole, and the five scalar fields
    are always there. *)
Theorem formatInstanceForAI_name_and_environment
    (instance : AWSResource Time) :
  formatInstanceForAI instance !! "name" =
    Some (VString (default (ID instance) (Tags instance !! "Name")))
  /\ formatInstanceForAI instance !! "environment" =
       match Tags instance !! "Environment" with
       | Some env => if String.eqb env "" then None else Some (VString env)
       | None => None
       end
  /\ formatInstanceForAI instance !! "tags" =
       Some (VMap (VString <$> Tags instance))
  /\ formatInstanceForAI instance !! "details" =
       Some (VMap (Details instance))
  /\ (forall k,
        In k ["id"; "type"; "state"; "region"; "last_seen"] ->
        exists s, formatInstanceForAI instance !! k = Some (VString s)).
Proof.
  unfold formatInstanceForAI.
  destruct (Tags instance !! "Name") as [name|];
    destruct (Tags instance !! "Environment") as [env|]; simpl;
    try destruct (String.eqb env ""); simpl;
    (split; [reflexivity|]); (split; [reflexivity|]);
    (split; [reflexivity|]); (split; [reflexivity|]);
    intros k [<-|[<-|[<-|[<-|[<-|[]]]]]]; eexists; reflexivity.
Qed.

End FormatExtras.

(** X11 at the fleet of the small platform. *)
Lemma formatInstancesForAI_summaries_witness :
  exists byState byType : gmap string Z,
    formatInstancesForAI (P := Demo.platform) Demo.fleet
      !! "summary_by_state" = Some (VMap (VInt <$> byState))
    /\ formatInstancesForAI (P := Demo.platform) Demo.fleet
         !! "summary_by_type" = Some (VMap (VInt <$> byType))
    /\ (forall s,
          byState !! s =
            if Nat.eqb (occurrences s (map State Demo.fleet)) 0 then None
            else Some (Z.of_nat (occurrences s (map State Demo.fleet))))
    /\ (forall s,
          byType !! s =
            if Nat.eqb (occurrences s (omap type_of Demo.fleet)) 0 then None
            else Some (Z.of_nat (occurrences s (omap type_of Demo.fleet)))).
Proof.
  apply (formatInstancesForAI_summaries (P := Demo.platform) Demo.fleet).
  simpl. lia.
Defined.

(** ** The message loop, continued *)

Section StartExtras.
Context {S : MCPServer}.
Implicit Types (p : Process) (input : list ScanEvent).

(** X14. The loop runs through an input in pieces: after a piece with no
    cancellation it goes on with the rest from the process state that the
    piece left. *)
Theorem Start_loop_app (first rest : list ScanEvent) p :
  cancellation first = None ->
  Start_loop (first ++ rest) p = Start_loop rest (snd (Start_loop first p)).
Proof.
  revert p. induction first as [|ev first IH]; intros p; simpl;
    [reflexivity|].
  destruct (scan_ctx ev); [discriminate|]. intros H.
  destruct (Nat.eqb (String.length (scan_line ev)) 0); [now apply IH|].
  destruct (HandleMessage (scan_line ev) (mcpServer p)) as [response srv'].
  destruct response as [message|]; [|now apply IH].
  destruct (json_Marshal message); now apply IH.
Qed.

(** X15. Empty lines read while the context is live change nothing: the
    run on the input without them returns the same error and ends in the
    same process state, with the same output. *)
Theorem Start_skips_empty_lines input scannerErr p :
  Start (List.filter (fun ev => negb (idle ev)) input) scannerErr p =
    Start input scannerErr p.
Proof.
  unfold Start.
  assert (forall q, Start_loop
                      (List.filter (fun ev => negb (idle ev)) input) q =
                    Start_loop input q) as H; [|now rewrite H].
  induction input as [|ev input IH]; intros q; simpl; [reflexivity|].
  unfold idle at 1.
  destruct (scan_ctx ev) as [ctxErr|] eqn:Hctx; simpl.
  - now rewrite Hctx.
  - destruct (Nat.eqb (String.length (scan_line ev)) 0) eqn:Hlen; simpl.
    + apply IH.
    + rewrite Hctx, Hlen.
      destruct (HandleMessage (scan_line ev) (mcpServer q))
        as [response srv'].
      destruct response as [message|]; [|apply IH].
      destruct (json_Marshal message); apply IH.
Qed.

(** While the context is live the loop is [serve] on the non-empty
    lines. *)
Lemma Start_loop_serve input p :
  cancellation input = None ->
  snd (Start_loop input p) =
    {| mcpServer := snd (serve (dispatched input) (mcpServer p));
       stdout := (stdout p ++ fst (serve (dispatched input) (mcpServer p)))%list;
       handled := (handled p ++ dispatched input)%list |}.
Proof.
  revert p. induction input as [|ev input IH]; intros p.
  - intros _. destruct p. simpl. now rewrite !app_nil_r.
  - simpl. unfold dispatched. simpl.
    destruct (scan_ctx ev); [discriminate|]. intros H.
    destruct (Nat.eqb (String.length (scan_line ev)) 0); simpl;
      [now apply IH|].
    destruct (HandleMessage (scan_line ev) (mcpServer p)) as [response srv'].
    fold (dispatched input).
    destruct (serve (dispatched input) srv') as [out srv''] eqn:Hserve.
    destruct response as [message|];
      [destruct (json_Marshal message)|];
      rewrite (IH _ H); simpl; rewrite Hserve; simpl;
      rewrite <- ?app_assoc; reflexivity.
Qed.

Lemma Start_process input scannerErr p :
  snd (Start input scannerErr p) =
    {| mcpServer :=
         snd (serve (dispatched (live_prefix input)) (mcpServer p));
       stdout :=
         (stdout p ++
          fst (serve (dispatched (live_prefix input)) (mcpServer p)))%list;
       handled := (handled p ++ dispatched (live_prefix input))%list |}.
Proof.
  rewrite <- (Start_loop_serve (live_prefix input) p
                (cancellation_live_prefix input)).
  unfold Start. rewrite Start_loop_live_prefix.
  destruct (Start_loop_live (live_prefix input) p
              (cancellation_live_prefix input)) as [Hnone _].
  now destruct (cancellation input); [|rewrite Hnone].
Qed.

(** X16. [Start] hands the non-empty lines read before the cancellation
    to the server one after the other, each in the state the one before
    left, and writes the encoded response of each, followed by a line break,
    before the next line is handled; a line with no response, or with one
    that cannot be encoded, writes nothing and does not stop the loop. *)
Theorem Start_serves_in_order input scannerErr p :
  snd (Start input scannerErr p) =
    {| mcpServer :=
         snd (serve (dispatched (live_prefix input)) (mcpServer p));
       stdout :=
         (stdout p ++
          fst (serve (dispatched (live_prefix input)) (mcpServer p)))%list;
       handled := (handled p ++ dispatched (live_prefix input))%list |}.
Proof. apply Start_process. Qed.

Lemma serve_written (lines : list string) (srv : Srv) :
  exists responses : list string,
    fst (serve lines srv) =
      flat_map (fun r => [r; newline]) responses
    /\ List.length responses <= List.length lines.
Proof.
  revert srv. induction lines as [|line lines IH]; intros srv; simpl.
  - exists []. split; [reflexivity|simpl; lia].
  - destruct (HandleMessage line srv) as [response srv'].
    destruct (IH srv') as (responses & Hout & Hlen).
    destruct (serve lines srv') as [out srv'']. simpl in *. subst out.
    destruct response as [message|];
      [destruct (json_Marshal message) as [bytes|err]|].
    + exists (bytes :: responses). split; [reflexivity|simpl; lia].
    + exists responses. split; [reflexivity|lia].
    + exists responses. split; [reflexivity|lia].
Qed.

(** X17. [Start] only appends to the output: what it adds is a sequence
    of responses, each followed by one line break, and there are at most as
    many responses as lines handled. *)
Theorem Start_writes_lines input scannerErr p :
  exists responses : list string,
    stdout (snd (Start input scannerErr p)) =
      (stdout p ++ flat_map (fun r => [r; newline]) responses)%list
    /\ List.length responses <=
         List.length (handled (snd (Start input scannerErr p)))
         - List.length (handled p).
Proof.
  rewrite Start_process. simpl.
  destruct (serve_written (dispatched (live_prefix input)) (mcpServer p))
    as (responses & Hout & Hlen).
  exists responses. rewrite Hout. split; [reflexivity|].
  rewrite length_app. lia.
Qed.

End StartExtras.

(** X14 at two live lines followed by the three lines with the
    cancellation. *)
Lemma Start_loop_app_witness :
  Start_loop (S := Demo.echo) (DemoInputs.two_lines ++ Demo.three_lines)
    Demo.p0 =
  Start_loop (S := Demo.echo) Demo.three_lines
    (snd (Start_loop (S := Demo.echo) DemoInputs.two_lines Demo.p0)).
Proof.
  apply (Start_loop_app (S := Demo.echo) DemoInputs.two_lines
           Demo.three_lines Demo.p0).
  reflexivity.
Defined.

(** ** The client over the SDK *)

Section ClientExtras.
Context {Time : Type} {E : EC2 Time}.
Implicit Types (instance : ec2types.Instance Time Placement) (env : Env).

Lemma collectTags_fold (tags : list ec2types.Tag) :
  aws.collectTags tags = fold_left tag_step tags ∅.
Proof. reflexivity. Qed.

Lemma fold_tags_lookup (tags : list ec2types.Tag) (acc : gmap string string)
    (k v : string) :
  fold_left tag_step tags acc !! k = Some v ->
  acc !! k = Some v
  \/ exists tag, In tag tags /\ ec2types.Key tag = Some k
                 /\ ec2types.Value tag = Some v.
Proof.
  revert acc. induction tags as [|tag tags IH]; intros acc; simpl;
    [now left|].
  intros H. destruct (IH _ H) as [Hacc|(tag' & Hin & Hk & Hv)].
  - unfold tag_step in Hacc.
    destruct (ec2types.Key tag) as [k'|] eqn:Hk';
      destruct (ec2types.Value tag) as [v'|] eqn:Hv'; try now left.
    destruct (decide (k' = k)) as [->|Hne].
    + rewrite lookup_insert_eq in Hacc. injection Hacc as ->.
      right. exists tag. now repeat split; [left| |].
    + rewrite lookup_insert_ne in Hacc by assumption. now left.
  - right. exists tag'. now repeat split; [right| |].
Qed.

Lemma fold_tags_keeps (tags : list ec2types.Tag) (acc : gmap string string)
    (k : string) :
  is_Some (acc !! k) -> is_Some (fold_left tag_step tags acc !! k).
Proof.
  revert acc. induction tags as [|tag tags IH]; intros acc H; simpl;
    [exact H|].
  apply IH. unfold tag_step.
  destruct (ec2types.Key tag) as [k'|]; destruct (ec2types.Value tag) as [v'|];
    trivial.
  destruct (decide (k' = k)) as [->|Hne].
  - rewrite lookup_insert_eq. now eexists.
  - now rewrite lookup_insert_ne.
Qed.

(** The two ways [convertEC2Instance] ends. *)
Lemma convertEC2Instance_cases instance env :
  match ec2types.State instance with
  | None => aws.convertEC2Instance instance env = Panics
  | Some _ =>
      exists r,
        aws.convertEC2Instance instance env =
          Returns (r, snd (env_Now env))
        /\ converted instance r
        /\ LastSeen r = fst (env_Now env)
  end.
Proof.
  unfold aws.convertEC2Instance.
  destruct (ec2types.State instance) as [st|] eqn:Hst; [|reflexivity].
  destruct (env_Now env) as [now env']. eexists. split; [reflexivity|].
  split; [|reflexivity].
  unfold converted. simpl. rewrite Hst.
  split; [reflexivity|]. split; [reflexivity|]. split; [reflexivity|].
  split; [now exists st|]. split; [reflexivity|].
  destruct (ec2types.PublicIpAddress instance);
    destruct (ec2types.PrivateIpAddress instance); repeat split.
Qed.

Lemma convertInstances_spec
    (instances : list (ec2types.Instance Time Placement))
    (resources : list (AWSResource Time)) env :
  if forallb has_state instances then
    exists new env',
      aws.convertInstances instances resources env =
        Returns ((resources ++ new)%list, env')
      /\ Forall2 converted instances new
  else aws.convertInstances instances resources env = Panics.
Proof.
  revert resources env.
  induction instances as [|i rest IH]; intros resources env; simpl.
  - exists [], env. rewrite app_nil_r. now split.
  - pose proof (convertEC2Instance_cases i env) as Hi. unfold has_state at 1.
    destruct (ec2types.State i) as [st|]; simpl; [|now rewrite Hi].
    destruct Hi as (r & -> & Hr & _).
    specialize (IH (resources ++ [r])%list (snd (env_Now env))).
    destruct (forallb has_state rest); [|exact IH].
    destruct IH as (new & env' & -> & Hnew).
    exists (r :: new), env'. rewrite <- app_assoc. split; [reflexivity|].
    now constructor.
Qed.

Lemma convertReservations_spec
    (reservations : list (ec2types.Reservation Time Placement))
    (resources : list (AWSResource Time)) env :
  if forallb has_state (concat (map ec2types.Instances reservations)) then
    exists new env',
      aws.convertReservations reservations resources env =
        Returns ((resources ++ new)%list, env')
      /\ Forall2 converted
           (concat (map ec2types.Instances reservations)) new
  else aws.convertReservations reservations resources env = Panics.
Proof.
  revert resources env.
  induction reservations as [|r rest IH]; intros resources env; simpl.
  - exists [], env. rewrite app_nil_r. now split.
  - rewrite forallb_app.
    pose proof (convertInstances_spec (ec2types.Instances r) resources env)
      as Hr.
    destruct (forallb has_state (ec2types.Instances r)); simpl;
      [|now rewrite Hr].
    destruct Hr as (new1 & env1 & -> & Hnew1).
    specialize (IH (resources ++ new1)%list env1).
    destruct (forallb has_state (concat (map ec2types.Instances rest)));
      [|exact IH].
    destruct IH as (new2 & env2 & -> & Hnew2).
    exists (new1 ++ new2)%list, env2. rewrite <- app_assoc.
    split; [reflexivity|]. now apply Forall2_app.
Qed.

Lemma ListEC2Instances_cases env :
  match fst (ec2_DescribeInstances [] (snd (env_Now env))) with
  | Err e =>
      exists env',
        aws.ListEC2Instances env =
          Returns (Err ("failed to describe instances: " ++ e), env')
  | Ok reservations =>
      if forallb has_state (concat (map ec2types.Instances reservations))
      then
        exists resources env',
          aws.ListEC2Instances env = Returns (Ok resources, env')
          /\ Forall2 converted
               (concat (map ec2types.Instances reservations)) resources
      else aws.ListEC2Instances env = Panics
  end.
Proof.
  unfold aws.ListEC2Instances.
  destruct (env_Now env) as [start env0]. simpl.
  destruct (ec2_DescribeInstances [] env0) as [[reservations|e] env1]; simpl;
    [|now eexists].
  pose proof (convertReservations_spec reservations [] env1) as H.
  destruct (forallb has_state (concat (map ec2types.Instances reservations))).
  - destruct H as (new & env2 & -> & Hnew). simpl.
    destruct (env_Now env2) as [t env3]. now exists new, env3.
  - now rewrite H.
Qed.

(** X19. [ListEC2Instances] asks the service for all instances. An error
    of the service comes back as [failed to describe instances: ] followed
    by its text. Otherwise, when every instance carries a state, the result
    has one resource for each instance of each reservation, in the order of
    the output, each holding what the client takes over from its instance;
    when some instance carries no state the call panics. *)
Theorem ListEC2Instances_spec env :
  match fst (ec2_DescribeInstances [] (snd (env_Now env))) with
  | Err e =>
      exists env',
        aws.ListEC2Instances env =
          Returns (Err ("failed to describe instances: " ++ e), env')
  | Ok reservations =>
      if forallb has_state (concat (map ec2types.Instances reservations))
      then
        exists resources env',
          aws.ListEC2Instances env = Returns (Ok resources, env')
          /\ Forall2 converted
               (concat (map ec2types.Instances reservations)) resources
      else aws.ListEC2Instances env = Panics
  end.
Proof. apply ListEC2Instances_cases. Qed.

(** X20. [GetEC2Instance] asks the service for the one id. An error of
    the service comes back as [failed to describe instance ], the id, a colon
    and the text; an output with no reservation, or whose first reservation
    is empty, gives [instance ], the id, [ not found]. Otherwise the result
    is made from the first instance of the first reservation, whatever its
    id and whatever else the output holds; the call panics when that instance
    carries no state. *)
Theorem GetEC2Instance_spec (instanceID : string) env :
  match fst (ec2_DescribeInstances [instanceID] env) with
  | Err e =>
      exists env',
        aws.GetEC2Instance instanceID env =
          Returns (Err ("failed to describe instance " ++ instanceID ++ ": "
                          ++ e), env')
  | Ok reservations =>
      match concat (map ec2types.Instances (List.firstn 1 reservations)) with
      | [] =>
          exists env',
            aws.GetEC2Instance instanceID env =
              Returns (Err ("instance " ++ instanceID ++ " not found"), env')
      | instance :: _ =>
          if has_state instance then
            exists r env',
              aws.GetEC2Instance instanceID env = Returns (Ok r, env')
              /\ converted instance r
          else aws.GetEC2Instance instanceID env = Panics
      end
  end.
Proof.
  unfold aws.GetEC2Instance.
  destruct (ec2_DescribeInstances [instanceID] env)
    as [[reservations|e] env1]; simpl; [|now eexists].
  destruct reservations as [|reservation rest]; simpl; [now eexists|].
  rewrite app_nil_r.
  destruct (ec2types.Instances reservation) as [|instance others];
    [now eexists|].
  pose proof (convertEC2Instance_cases instance env1) as H.
  unfold has_state. destruct (ec2types.State instance); [|now rewrite H].
  destruct H as (r & -> & Hr & _). now eexists _, _.
Qed.

End ClientExtras.

Section ClientThenFormat.
Context {P : Platform} {E : EC2 Time}.

Lemma converted_types
    (instances : list (ec2types.Instance Time Placement))
    (resources : list (AWSResource Time)) :
  Forall2 converted instances resources ->
  omap type_of resources = map ec2types.InstanceType instances
  /\ List.length resources = List.length instances.
Proof.
  induction 1 as [|i r instances resources Hir _ [IH1 IH2]];
    [now split|].
  destruct Hir as (_ & _ & _ & _ & _ & Htype & _).
  split; [|simpl; now rewrite IH2].
  change (omap type_of (r :: resources))
    with (match type_of r with
          | Some s => s :: omap type_of resources
          | None => omap type_of resources
          end).
  unfold type_of at 1. rewrite Htype, IH1. reflexivity.
Qed.

(** X21. What the client lists, formatted: the total is the number of
    instances in the output of the service, and the summary by type counts
    every one of them under its instance type, none being left out. *)
Theorem list_then_format_counts_every_type
    (reservations : list (ec2types.Reservation Time Placement))
    (resources : list (AWSResource Time)) (env env1 env' : Env) :
  ec2_DescribeInstances [] (snd (env_Now env)) = (Ok reservations, env1) ->
  aws.ListEC2Instances env = Returns (Ok resources, env') ->
  (Z.of_nat (List.length resources) < 2 ^ 63)%Z ->
  formatInstancesForAI resources !! "total_instances" =
    Some (VInt (Z.of_nat
                  (List.length
                     (concat (map ec2types.Instances reservations)))))
  /\ exists byType : gmap string Z,
      formatInstancesForAI resources !! "summary_by_type" =
        Some (VMap (VInt <$> byType))
      /\ forall s,
          byType !! s =
            if Nat.eqb
                 (occurrences s
                    (map ec2types.InstanceType
                       (concat (map ec2types.Instances reservations)))) 0
            then None
            else Some (Z.of_nat
                         (occurrences s
                            (map ec2types.InstanceType
                               (concat (map ec2types.Instances
                                          reservations))))).
Proof.
  intros Hdescribe Hlist Hlen.
  pose proof (ListEC2Instances_cases env) as Hspec.
  rewrite Hdescribe in Hspec. simpl in Hspec.
  destruct (forallb has_state (concat (map ec2types.Instances reservations)));
    [|rewrite Hlist in Hspec; discriminate].
  destruct Hspec as (resources' & env'' & Heq & Hconv).
  rewrite Hlist in Heq. injection Heq as <- <-.
  destruct (converted_types _ _ Hconv) as [Htypes Hlength].
  destruct (formatInstancesForAI_counts resources Hlen)
    as (byState & byType & _ & HbyType & _ & Hcounts).
  split; [now rewrite formatInstancesForAI_total, Hlength|].
  exists byType. split; [exact HbyType|].
  intros s. rewrite <- Htypes. apply Hcounts.
Qed.

End ClientThenFormat.

(** X21 at the small service, with the clock at zero. *)
Lemma list_then_format_counts_every_type_witness :
  formatInstancesForAI (P := Demo.platform) DemoEC2.listed
    !! "total_instances" =
    Some (VInt (Z.of_nat
                  (List.length
                     (concat (map ec2types.Instances
                                DemoEC2.reservations)))))
  /\ exists byType : gmap string Z,
      formatInstancesForAI (P := Demo.platform) DemoEC2.listed
        !! "summary_by_type" = Some (VMap (VInt <$> byType))
      /\ forall s,
          byType !! s =
            if Nat.eqb
                 (occurrences s
                    (map ec2types.InstanceType
                       (concat (map ec2types.Instances
                                  DemoEC2.reservations)))) 0
            then None
            else Some (Z.of_nat
                         (occurrences s
                            (map ec2types.InstanceType
                               (concat (map ec2types.Instances
                                          DemoEC2.reservations))))).
Proof.
  apply (list_then_format_counts_every_type (P := Demo.platform)
           (E := DemoEC2.service) DemoEC2.reservations DemoEC2.listed
           0%Z 1%Z 4%Z).
  - reflexivity.
  - reflexivity.
  - simpl. lia.
Defined.

(** The client on the small service: two resources, the second with the
    empty id, and of the two [Name] tags the later one. *)
Example DemoEC2_listed :
  map ID DemoEC2.listed = ["i-12345678"; ""]
  /\ map (fun r => Tags r !! "Name") DemoEC2.listed = [Some "web-1"; None]
  /\ map (fun r => Tags r !! "Owner") DemoEC2.listed = [None; None]
  /\ map LastSeen DemoEC2.listed = [1%Z; 2%Z].
Proof. repeat split. Qed.

(** * Failures in the payload, routing and repeated reads *)

Section FailurePayload.
Context {P : Platform}.
Implicit Types (arguments : gmap string value) (w : World).

(** C4. For every registered tool, when validation passes and the call
    [c] that the tool makes on the client is answered with the error [e],
    the tool returns a result and no error, and the payload encoded in the
    result has [success] false and, under [error], the text [failed to ],
    the action of the tool, a colon and a space, and then the text of [e]
    unchanged. *)
Theorem collaborator_failure_in_payload (t : Tool) arguments w c e :
  In t registered_tools ->
  first_missing t arguments = None ->
  calls (snd (CallTool (tool_name t) arguments w)) = (calls w ++ [c])%list ->
  refusal c (provider w) = Some e ->
  exists payload : gmap string value,
    fst (CallTool (tool_name t) arguments w) =
      (Some (text_result (marshal_text (VMap payload))), None)
    /\ payload !! "success" = Some (VBool false)
    /\ payload !! "error" =
         Some (VString ("failed to " ++ tool_action (tool_name t) ++ ": "
                          ++ e))
    /\ is_Some (payload !! "timestamp")
    /\ dom payload = {["success"; "error"; "timestamp"]}.
Proof.
  intros Ht Hvalid Hcall Hrefused.
  destruct (validated_call t arguments w Ht Hvalid) as (c' & Hcalls & Hres).
  rewrite Hcall in Hcalls. apply app_inj_tail in Hcalls as [_ <-].
  rewrite Hrefused in Hres.
  set (message := "failed to " ++ tool_action (tool_name t) ++ ": " ++ e) in *.
  exists (errorData message (clock w)).
  destruct (errorData_lookup message (clock w)) as (Hs & He & Hts).
  split; [exact Hres|]. split; [exact Hs|]. split; [exact He|].
  split; [rewrite Hts; now eexists|].
  unfold errorData. rewrite !dom_insert_L, dom_empty_L. set_solver.
Qed.

End FailurePayload.

(** C4 at [start-ec2-instance] on an instance the provider does not know:
    the text of the provider is in the payload. *)
Lemma collaborator_failure_in_payload_witness :
  exists payload : gmap string value,
    fst (CallTool (P := Demo.platform) "start-ec2-instance"
           Demo.start_unknown_instance Demo.w0) =
      (Some (text_result (marshal_text (P := Demo.platform) (VMap payload))),
       None)
    /\ payload !! "success" = Some (VBool false)
    /\ payload !! "error" =
         Some (VString ("failed to " ++ tool_action "start-ec2-instance"
                          ++ ": " ++ "InvalidInstanceID.NotFound: i-0abc"))
    /\ is_Some (payload !! "timestamp")
    /\ dom payload = {["success"; "error"; "timestamp"]}.
Proof.
  apply (collaborator_failure_in_payload (P := Demo.platform)
           start_ec2_instance Demo.start_unknown_instance Demo.w0
           (CallStartEC2Instance "i-0abc")
           "InvalidInstanceID.NotFound: i-0abc").
  - simpl. tauto.
  - reflexivity.
  - reflexivity.
  - reflexivity.
Defined.

Section Routing.
Context {P : Platform}.
Implicit Types (w : World).

Lemma readEC2Instance_calls (instanceID : string) w :
  calls (snd (readEC2Instance instanceID w)) =
    (calls w ++ [CallGetEC2Instance instanceID])%list.
Proof.
  unfold readEC2Instance, bind, GetEC2Instance, invoke.
  destruct (aws_GetEC2Instance instanceID (provider w))
    as [[instance|err] s']; simpl; [|reflexivity].
  now destruct (json_MarshalIndent _).
Qed.

(** C2, as the code has it. [ReadResource] serves a URI as an instance
    detail, that is, it behaves as [readEC2Instance] on some id and asks the
    client for that id, exactly when the URI starts with
    [aws://ec2/instances/]; the id is all that follows the prefix, so a URI
    with further segments after the id is served too, with the slashes in
    the id. Every URI that the registered template matches segment by
    segment is served this way with the bound segment as the id. *)
Theorem ReadResource_template_by_prefix (uri : string) w :
  (forall instanceID,
      calls (snd (ReadResource uri w)) =
        (calls w ++ [CallGetEC2Instance instanceID])%list
      <-> uri = "aws://ec2/instances/" ++ instanceID)
  /\ (forall instanceID,
        uri = "aws://ec2/instances/" ++ instanceID ->
        ReadResource uri w = readEC2Instance instanceID w)
  /\ (forall instanceID rest,
        ReadResource ("aws://ec2/instances/" ++ instanceID ++ "/" ++ rest) w =
          readEC2Instance (instanceID ++ "/" ++ rest) w)
  /\ (forall b,
        Spec.template_match registered_template uri = Some b ->
        exists instanceID,
          b = [("instanceId", instanceID)]
          /\ instanceID <> ""
          /\ ReadResource uri w = readEC2Instance instanceID w).
Proof.
  assert (forall instanceID,
             ReadResource ("aws://ec2/instances/" ++ instanceID) w =
               readEC2Instance instanceID w) as Hprefix.
  { intros instanceID. rewrite ReadResource_resolve.
    assert (resolve ("aws://ec2/instances/" ++ instanceID) =
              InstanceDetail instanceID) as ->
        by now apply resolve_InstanceDetail.
    reflexivity. }
  split; [|split; [|split]].
  - intros instanceID. split.
    + destruct (ReadResource_calls uri w) as [Hcalls _]. rewrite Hcalls.
      intros H. apply app_inv_head in H.
      destruct (resolve uri) as [|instanceID'|] eqn:Hr; try discriminate.
      injection H as ->. now apply resolve_InstanceDetail.
    + intros ->. rewrite Hprefix. apply readEC2Instance_calls.
  - intros instanceID ->. apply Hprefix.
  - intros instanceID rest. apply Hprefix.
  - intros b Hb.
    destruct (template_match_inv uri b Hb) as (instanceID & -> & Hne & ->).
    exists instanceID. split; [reflexivity|]. split; [exact Hne|].
    apply Hprefix.
Qed.


(** X7. [ReadResource] makes at most one call on the client: the listing
    for the list URI, the lookup of the text after the prefix for a URI with
    the prefix, and none for any other URI, in which case the world is left
    as it was. *)
Theorem ReadResource_one_call (uri : string) w :
  calls (snd (ReadResource uri w)) =
    (calls w ++
     (if String.eqb uri "aws://ec2/instances" then [CallListEC2Instances]
      else if strings.HasPrefix uri "aws://ec2/instances/" then
        [CallGetEC2Instance (strings.TrimPrefix uri "aws://ec2/instances/")]
      else []))%list
  /\ (String.eqb uri "aws://ec2/instances" = false ->
      strings.HasPrefix uri "aws://ec2/instances/" = false ->
      snd (ReadResource uri w) = w).
Proof.
  destruct (ReadResource_calls uri w) as [Hcalls _]. split.
  - rewrite Hcalls. unfold resolve.
    destruct (String.eqb uri "aws://ec2/instances"); [reflexivity|].
    now destruct (strings.HasPrefix uri "aws://ec2/instances/").
  - intros H1 H2. unfold ReadResource. now rewrite H1, H2.
Qed.

End Routing.

Section RepeatedReads.
Context {P : Platform}.
Implicit Types (w : World).

Lemma formatListEntry_same (r1 r2 : AWSResource Time) :
  same_but_LastSeen r1 r2 -> formatListEntry r1 = formatListEntry r2.
Proof.
  intros (Hid & _ & Hregion & Hstate & Htags & Hdetails).
  unfold formatListEntry. now rewrite Hid, Hregion, Hstate, Htags, Hdetails.
Qed.

Lemma omap_type_of_cons (r : AWSResource Time) (l : list (AWSResource Time)) :
  omap type_of (r :: l) =
    match type_of r with
    | Some s => s :: omap type_of l
    | None => omap type_of l
    end.
Proof. reflexivity. Qed.

Lemma formatInstancesForAI_same (l1 l2 : list (AWSResource Time)) :
  Forall2 same_but_LastSeen l1 l2 ->
  formatInstancesForAI l1 = formatInstancesForAI l2.
Proof.
  intros H. unfold formatInstancesForAI. rewrite !formatLoop_spec.
  assert (map (fun i => VMap (formatListEntry i)) l1 =
            map (fun i => VMap (formatListEntry i)) l2
          /\ map State l1 = map State l2
          /\ omap type_of l1 = omap type_of l2
          /\ List.length l1 = List.length l2) as (-> & -> & -> & ->);
    [|reflexivity].
  induction H as [|r1 r2 l1 l2 Hr _ (IH1 & IH2 & IH3 & IH4)];
    [now repeat split|].
  pose proof (formatListEntry_same _ _ Hr) as Hentry.
  destruct Hr as (_ & _ & _ & Hstate & _ & Hdetails).
  split; [|split; [|split]].
  - simpl. now rewrite Hentry, IH1.
  - simpl. now rewrite Hstate, IH2.
  - assert (type_of r1 = type_of r2) as Htype
      by (unfold type_of; now rewrite Hdetails).
    now rewrite !omap_type_of_cons, Htype, IH3.
  - simpl. now rewrite IH4.
Qed.

(** C8, as the code has it. Two reads of a URI return the same pair of
    result and error when the client answers the listing with records that
    agree in every field but [LastSeen] and, if the URI is that of an
    instance detail, answers the lookup of its id with the same record,
    [LastSeen] included. The list does not show the time stamp; the instance
    detail prints it as [last_seen], so two detail reads are only known to
    agree when the client returns the same time stamp. *)
Theorem ReadResource_repeatable (uri : string) w1 w2 :
  same_listing w1 w2 ->
  (forall instanceID,
      uri = "aws://ec2/instances/" ++ instanceID ->
      fst (aws_GetEC2Instance instanceID (provider w1)) =
        fst (aws_GetEC2Instance instanceID (provider w2))) ->
  fst (ReadResource uri w1) = fst (ReadResource uri w2).
Proof.
  intros Hlist Hget. rewrite ReadResource_resolve.
  destruct (resolve uri) as [|instanceID|] eqn:Hr; [| |reflexivity].
  - unfold same_listing in Hlist.
    unfold readEC2InstancesList, bind, ListEC2Instances, invoke.
    destruct (aws_ListEC2Instances (provider w1)) as [[l1|e1] s1];
      destruct (aws_ListEC2Instances (provider w2)) as [[l2|e2] s2];
      simpl in *; try contradiction.
    + rewrite (formatInstancesForAI_same l1 l2 Hlist).
      now destruct (json_MarshalIndent _).
    + now subst e2.
  - apply resolve_InstanceDetail in Hr. specialize (Hget instanceID Hr).
    unfold readEC2Instance, bind, GetEC2Instance, invoke.
    destruct (aws_GetEC2Instance instanceID (provider w1)) as [r1 s1].
    destruct (aws_GetEC2Instance instanceID (provider w2)) as [r2 s2].
    simpl in Hget. subst r2. destruct r1 as [instance|err]; simpl.
    + now destruct (json_MarshalIndent _).
    + reflexivity.
Qed.

End RepeatedReads.

(** C8 as stated fails for the instance detail on the client of the
    package: the service answers the two reads with the same instance, yet
    the client stamps each record with the time of the call, and the second
    payload differs from the first, in [last_seen]. *)
Lemma detail_read_twice_differs :
  fst (ec2_DescribeInstances (EC2 := DemoEC2.service) ["i-12345678"]
         (provider DemoClient.w0)) =
    fst (ec2_DescribeInstances (EC2 := DemoEC2.service) ["i-12345678"]
           (provider DemoClient.w1))
  /\ DemoClient.stamp DemoClient.w0 "i-12345678" = Some 0%Z
  /\ DemoClient.stamp DemoClient.w1 "i-12345678" = Some 1%Z
  /\ fst (ReadResource (P := DemoClient.platform)
            "aws://ec2/instances/i-12345678" DemoClient.w0) <>
     fst (ReadResource (P := DemoClient.platform)
            "aws://ec2/instances/i-12345678" DemoClient.w1).
Proof.
  split; [reflexivity|]. split; [reflexivity|]. split; [reflexivity|].
  intros H. vm_compute in H. discriminate.
Qed.

(** C8 at the list on the client of the package, read a second time in
    the world the first read leaves: the time stamps of the records differ,
    the payloads do not. *)
Lemma ReadResource_repeatable_witness :
  fst (ReadResource (P := DemoClient.platform) "aws://ec2/instances"
         DemoClient.w0) =
  fst (ReadResource (P := DemoClient.platform) "aws://ec2/instances"
         (snd (ReadResource (P := DemoClient.platform) "aws://ec2/instances"
                 DemoClient.w0))).
Proof.
  apply (ReadResource_repeatable (P := DemoClient.platform)).
  - unfold same_listing. simpl. repeat constructor.
  - intros instanceID H. discriminate H.
Defined.

Section LastTag.

(** Tags that do not carry both the key [k] and a value leave the entry of
    [k] as it is. *)
Lemma fold_tags_other (tags : list ec2types.Tag) (acc : gmap string string)
    (k : string) :
  (forall t, In t tags -> ec2types.Key t = Some k ->
             ec2types.Value t = None) ->
  fold_left tag_step tags acc !! k = acc !! k.
Proof.
  revert acc. induction tags as [|tag tags IH]; intros acc H; simpl;
    [reflexivity|].
  rewrite IH by (intros t Ht; apply H; now right).
  unfold tag_step.
  destruct (ec2types.Key tag) as [k'|] eqn:Hk; [|reflexivity].
  destruct (ec2types.Value tag) as [v'|] eqn:Hv; [|reflexivity].
  destruct (decide (k' = k)) as [->|Hne].
  - rewrite (H tag (or_introl eq_refl) Hk) in Hv. discriminate.
  - now rewrite lookup_insert_ne.
Qed.

(** X18. The tag map of a converted instance holds, for each key, the
    value of the last tag of the instance that carries this key and a value,
    wherever that tag stands in the list and whatever tags with other keys
    follow it; a key that no tag carries together with a value is not in the
    map, so a tag without key or without value is dropped. *)
Theorem collectTags_last_complete_tag (tags : list ec2types.Tag)
    (k : string) :
  (forall before tag after v,
      tags = (before ++ tag :: after)%list ->
      ec2types.Key tag = Some k ->
      ec2types.Value tag = Some v ->
      (forall t, In t after -> ec2types.Key t = Some k ->
                 ec2types.Value t = None) ->
      aws.collectTags tags !! k = Some v)
  /\ ((forall t, In t tags -> ec2types.Key t = Some k ->
                 ec2types.Value t = None) ->
      aws.collectTags tags !! k = None)
  /\ (forall v, aws.collectTags tags !! k = Some v ->
                exists tag, In tag tags /\ ec2types.Key tag = Some k
                            /\ ec2types.Value tag = Some v).
Proof.
  split; [|split].
  - intros before tag after v -> Hk Hv Hafter.
    rewrite collectTags_fold, fold_left_app. simpl.
    rewrite (fold_tags_other after _ k Hafter).
    unfold tag_step at 1. now rewrite Hk, Hv, lookup_insert_eq.
  - intros H. rewrite collectTags_fold, (fold_tags_other tags ∅ k H).
    apply lookup_empty.
  - intros v H. rewrite collectTags_fold in H.
    destruct (fold_tags_lookup tags ∅ k v H) as [H0|H0];
      [now rewrite lookup_empty in H0|exact H0].
Qed.

End LastTag.

(** The two [Name] tags of the small instance, with a tag of another key
    between them and none after: the later one decides. *)
Example collectTags_web :
  aws.collectTags (ec2types.Tags DemoEC2.web) !! "Name" = Some "web-1"
  /\ aws.collectTags (ec2types.Tags DemoEC2.web) !! "Owner" = None.
Proof. split; reflexivity. Qed.
